(** * StickPush: a shallow embedding of
      [robosuite/environments/manipulation/stick_push.py]

    The task class [StickPush] configures a table-top scene with a cube, a
    stick and a goal marker, exposes sensor functions over the simulator
    state, resets the scene from three placement samplers and computes a
    sparse reward.

    Conventions of the embedding:
    - a one-dimensional numpy array of floats is a [list R] wherever the
      values are only stored, moved and compared with each other, and its
      arithmetic is then that of the real numbers; the functions whose
      result depends on how binary64 rounds (the difference of two arrays,
      the norm, the success check, the relative sensors) are given a second
      time over arrays of binary64, in [Binary64];
    - Python [int] is [Z], numpy [bool] is [bool], [dict] is stdpp's [gmap];
    - an exception (IndexError, KeyError, a shape mismatch, a sampler that
      cannot place an object) is [None] in the [option] monad;
    - what the external framework provides (base-class hooks, derived
      attributes of the model classes, the random sampler) is the interface
      [Framework], over which the task and its properties are stated. *)

From Stdlib Require Import Reals Lra ZArith.
From Stdlib Require PrimFloat FloatOps SpecFloat.
From stdpp Require Import base option list strings pretty gmap.

Local Open Scope R_scope.

(* A decimal literal of a binary64 stands for the nearest binary64, as in
   Python. *)
Set Warnings "-inexact-float".

(** ** numpy: one-dimensional arrays *)

Module Numpy.

Abbreviation array := (list R).

(** [a[:n]] *)
Definition slice_to (n : nat) (a : array) : array := take n a.

(** [np.zeros(n)] *)
Definition zeros (n : nat) : array := replicate n 0.

(** [np.concatenate([a, b])] *)
Definition concatenate (a b : array) : array := a ++ b.

(** [a - b]: elementwise on equal shapes, a one-element array is broadcast,
    and any other pair of shapes raises ValueError. *)
Definition sub (a b : array) : option array :=
  if decide (length a = length b) then Some (zip_with Rminus a b)
  else match a, b with
       | [x], _ => Some (map (fun y => x - y) b)
       | _, [y] => Some (map (fun x => x - y) a)
       | _, _ => None
       end.

(** [x.dot(x)] *)
Definition dot (a b : array) : R :=
  fold_left Rplus (zip_with Rmult a b) 0.

(** [np.linalg.norm(x)] of a one-dimensional array: [sqrt(x.dot(x))]. *)
Definition norm (a : array) : R := sqrt (dot a a).

(** [x <= y] on floats, as a boolean. *)
Definition leb (x y : R) : bool := if Rle_dec x y then true else false.

End Numpy.

(** ** Python: a [for] loop whose body may raise *)

Module Python.

Fixpoint for_each {A S : Type} (body : S → A → option S) (s : S) (l : list A)
  : option S :=
  match l with
  | [] => Some s
  | x :: l' => s' ← body s x; for_each body s' l'
  end.

(** [key in d] *)
Definition contains {V : Type} (key : string) (d : gmap string V) : bool :=
  match d !! key with Some _ => true | None => false end.

End Python.

(** ** Success and reward *)

Module Success.
Import Numpy.

(** Class attribute [GOAL_RADIUS]. *)
Definition GOAL_RADIUS : R := 0.05.

(** [StickPush.check_success] *)
Definition check_success (goal_pos cube_pos : array) : option bool :=
  d ← sub (slice_to 2 goal_pos) (slice_to 2 cube_pos);
  Some (leb (norm d) GOAL_RADIUS).

(** [StickPush.compute_reward] *)
Definition compute_reward {I : Type} (goal_pos cube_pos : array) (info : I)
  : option Z :=
  b ← check_success goal_pos cube_pos;
  Some (if b : bool then 0%Z else (-1)%Z).

End Success.

(** ** mujoco_py: the part of [MjSim] the task reads and writes *)

Module Mujoco.
Import Numpy.

(** [sim.model]: name tables, per-body geometry ranges, the collision
    bitmasks (int32 arrays) and the fixed body poses. *)
Record MjModel := mkModel {
  body_ids : gmap string nat;
  geom_ids : gmap string nat;
  body_geomnum : list nat;
  body_geomadr : list nat;
  geom_contype : list Z;
  geom_conaffinity : list Z;
  body_pos : list array;
  body_quat : list array }.

(** [sim.data]: joint positions (one slice per named joint) and the
    absolute body poses computed by the simulator. *)
Record MjData := mkData {
  qpos : gmap string array;
  body_xpos : list array;
  body_xquat : list array }.

Record MjSim := mkSim { model : MjModel; data : MjData }.

(** [model.body_name2id(name)], [model.geom_name2id(name)]: ValueError on
    an unknown name. *)
Definition body_name2id (m : MjModel) (name : string) : option nat :=
  body_ids m !! name.
Definition geom_name2id (m : MjModel) (name : string) : option nat :=
  geom_ids m !! name.

(** [arr[i] = v] on a numpy array: IndexError outside the array. *)
Definition setitem {A : Type} (i : nat) (v : A) (arr : list A)
  : option (list A) :=
  if decide (i < length arr)%nat then Some (<[i := v]> arr) else None.

(** Broadcasting a value of shape [(1, n)] into a row of width [w]. *)
Definition broadcast_row (w : nat) (v : array) : option array :=
  if decide (length v = w) then Some v
  else match v with
       | [x] => Some (replicate w x)
       | _ => None
       end.

(** [arr[i] = np.array([v])] on an array of shape [(n, w)]. *)
Definition setrow (w i : nat) (v : array) (arr : list array)
  : option (list array) :=
  r ← broadcast_row w v; setitem i r arr.

(** The model with its two mask arrays replaced. *)
Definition with_masks (contype conaffinity : list Z) (m : MjModel) : MjModel :=
  mkModel (body_ids m) (geom_ids m) (body_geomnum m) (body_geomadr m)
    contype conaffinity (body_pos m) (body_quat m).

(** The model with its two arrays of fixed body poses replaced. *)
Definition with_poses (pos quat : list array) (m : MjModel) : MjModel :=
  mkModel (body_ids m) (geom_ids m) (body_geomnum m) (body_geomadr m)
    (geom_contype m) (geom_conaffinity m) pos quat.

(** [model.geom_contype[i] = v] *)
Definition set_geom_contype (i : nat) (v : Z) (m : MjModel) : option MjModel :=
  a ← setitem i v (geom_contype m);
  Some (with_masks a (geom_conaffinity m) m).

(** [model.geom_conaffinity[i] = v] *)
Definition set_geom_conaffinity (i : nat) (v : Z) (m : MjModel)
  : option MjModel :=
  a ← setitem i v (geom_conaffinity m);
  Some (with_masks (geom_contype m) a m).

(** [model.body_pos[i] = np.array([v])] *)
Definition set_body_pos (i : nat) (v : array) (m : MjModel) : option MjModel :=
  a ← setrow 3 i v (body_pos m);
  Some (with_poses a (body_quat m) m).

(** [model.body_quat[i] = np.array([v])] *)
Definition set_body_quat (i : nat) (v : array) (m : MjModel) : option MjModel :=
  a ← setrow 4 i v (body_quat m);
  Some (with_poses (body_pos m) a m).

(** [sim.data.set_joint_qpos(name, value)]: the joint must exist and the
    value must have the shape of the joint's slice of [qpos]. *)
Definition set_joint_qpos (name : string) (value : array) (d : MjData)
  : option MjData :=
  old ← qpos d !! name;
  if decide (length value = length old)
  then Some (mkData (<[name := value]> (qpos d)) (body_xpos d) (body_xquat d))
  else None.

(** MuJoCo's contact filter: two geometries can collide when the contype
    of one shares a bit with the conaffinity of the other. *)
Definition can_collide (contype1 conaffinity1 contype2 conaffinity2 : Z)
  : bool :=
  negb (Z.land contype1 conaffinity2 =? 0)%Z
  || negb (Z.land contype2 conaffinity1 =? 0)%Z.

End Mujoco.

(** ** robosuite: model objects and placement samplers *)

Module Robosuite.
Import Numpy.

Inductive ObjectKind := BoxObject | CylinderObject.
Inductive ObjType := ObjAll | ObjVisual.
Inductive JointSpec := JointsDefault | JointsNone.

(** A model object as the task constructs it: the constructor arguments,
    and [obj_id], the identity of the Python object. *)
Record MujocoObject := mkObject {
  obj_id : nat;
  obj_kind : ObjectKind;
  obj_name : string;
  obj_size : array;
  obj_rgba : array;
  obj_type : ObjType;
  obj_joints : JointSpec }.

(** The [rotation] argument of a sampler: [None], a range or one value. *)
Inductive Rotation :=
| RotationNone
| RotationRange (lo hi : R)
| RotationValue (r : R).

(** Modelled from the spec: the configuration of the framework's
    [UniformRandomSampler] (robosuite.utils.placement_samplers, not part of
    the sources at hand). The spec lists its options as
    spatial range per axis, rotation range, boundary and overlap validity
    checks, reference origin and z-offset; the fields carry the keyword
    names the task passes. *)
Record UniformRandomSampler := mkSampler {
  name : string;
  mujoco_objects : list MujocoObject;
  x_range : array;
  y_range : array;
  rotation : Rotation;
  ensure_object_boundary_in_range : bool;
  ensure_valid_placement : bool;
  reference_pos : array;
  z_offset : R }.

(** The configuration of a sampler: everything but its object list. *)
Definition config (s : UniformRandomSampler) :=
  (name s, x_range s, y_range s, rotation s,
   ensure_object_boundary_in_range s, ensure_valid_placement s,
   reference_pos s, z_offset s).

Definition with_objects (objs : list MujocoObject) (s : UniformRandomSampler)
  : UniformRandomSampler :=
  mkSampler (name s) objs (x_range s) (y_range s) (rotation s)
    (ensure_object_boundary_in_range s) (ensure_valid_placement s)
    (reference_pos s) (z_offset s).

(** Modelled from the spec: [sampler.reset()] of the framework, which the
    spec describes as "existing samplers are reset and object lists
    repopulated": the reset empties the object list. *)
Definition reset (s : UniformRandomSampler) : UniformRandomSampler :=
  with_objects [] s.

(** Modelled from the spec: [sampler.add_objects(obj)] of the framework,
    the repopulation of the object list with one more object. *)
Definition add_objects (obj : MujocoObject) (s : UniformRandomSampler)
  : UniformRandomSampler :=
  with_objects (mujoco_objects s ++ [obj]) s.

(** The result of [sampler.sample()]: object name to (pos, quat, object). *)
Abbreviation Placements := (gmap string (array * array * MujocoObject)).

(** Modelled from the spec: what a placement sampler promises for one
    position, "a randomized, constraint-valid pose ... within a declared
    spatial range", the range being taken relative to the reference
    origin. *)
Definition within_range (range : array) (origin x : R) : Prop :=
  ∃ lo hi, range = [lo; hi] ∧ lo + origin <= x <= hi + origin.

Definition within_declared_ranges (s : UniformRandomSampler) (pos : array)
  : Prop :=
  ∃ x y z ox oy oz,
    pos = [x; y; z] ∧ reference_pos s = [ox; oy; oz] ∧
    within_range (x_range s) ox x ∧ within_range (y_range s) oy y.

(** The target ordering asked of [convert_quat]; the task only ever passes
    [to="xyzw"]. *)
Inductive QuatOrder := xyzw.

(** Modelled from the spec: [convert_quat] of
    robosuite.utils.transform_utils (not part of the sources at hand), the
    "quaternion convention converter" by which an orientation is "reordered
    from the simulator's native scalar-first component ordering to a
    vector-first convention". A quaternion has four components. *)
Definition convert_quat (q : array) (to : QuatOrder) : option array :=
  match q with
  | [w; x; y; z] => Some [x; y; z; w]
  | _ => None
  end.

End Robosuite.

(** ** The task class *)

Module StickPush.
Import Python Numpy Mujoco Robosuite.
Export Success.

(** What the framework contributes: the state of the base classes, the
    global random generator, the base-class hooks the task overrides, the
    derived attributes of model objects, and the sampling procedure of a
    placement sampler. *)
Class Framework := {
  Base : Type;
  Rng : Type;
  deterministic_reset : Base → bool;
  control_freq : Base → R;
  robot_naming_prefix : Base → string;
  gripper_naming_prefix : Base → string;
  table_collision_name : Base → string;
  root_body : MujocoObject → string;
  joints : MujocoObject → list string;
  contact_geoms : MujocoObject → list string;
  super_load_model : Base → Base;
  place_robot_at_table : R → Base → Base;
  build_task : array → array → array → list MujocoObject → Base → Base;
  super_setup_references : MjSim → Base → Base;
  super_reset_internal : Base → MjSim → Rng → option (Base * MjSim * Rng);
  sample : UniformRandomSampler → option Placements → Rng
           → option (Placements * Rng) }.

(** Identifiers resolved by [_setup_references]. *)
Record References := mkRefs {
  cube_body_id : nat;
  goal_body_id : nat;
  stick_body_id : nat;
  gripper_body_id : nat;
  table_geom_id : nat }.

(** Class attributes. *)
Definition CUBE_HALFSIZE : R := 0.025.
Definition STICK_HALFLENGTH : R := 0.06.
Definition STICK_HALFWIDTH : R := 0.025.
Definition GRIPPER_BOUNDS : list array := [[-0.2; 0]; [-0.1; 0.1]; [0; 0.2]].
Definition STICK_SPAWN_AREA : list array := [[-0.2; -0.08]; [-0.1; 0.1]].
Definition CUBE_SPAWN_AREA : list array := [[-0.05; 0]; [-0.1; 0.1]].
Definition GOAL_SPAWN_AREA : list array := [[0.07; 0.12]; [-0.1; 0.1]].

Section Env.
Context `{Framework}.

(** The instance: its own attributes, the placement samplers it refers
    to ([samplers] maps the identity of a sampler object to its state,
    [next_id] is the next unused identity), the simulator, the random
    generator and the state of the base classes. An attribute that is
    assigned only after construction is [None] until then. *)
Record Env := mkEnv {
  table_full_size : array;
  table_friction : array;
  table_offset : array;
  use_object_obs : bool;
  cube_initializer : option nat;
  goal_initializer : option nat;
  stick_initializer : option nat;
  cube : option MujocoObject;
  goal : option MujocoObject;
  stick : option MujocoObject;
  refs : option References;
  samplers : gmap nat UniformRandomSampler;
  next_id : nat;
  sim : MjSim;
  rng : Rng;
  base : Base }.

Definition set_base (f : Base → Base) (e : Env) : Env :=
  mkEnv (table_full_size e) (table_friction e) (table_offset e)
    (use_object_obs e) (cube_initializer e) (goal_initializer e)
    (stick_initializer e) (cube e) (goal e) (stick e) (refs e)
    (samplers e) (next_id e) (sim e) (rng e) (f (base e)).

Definition set_objects (c g s : MujocoObject) (n : nat) (e : Env) : Env :=
  mkEnv (table_full_size e) (table_friction e) (table_offset e)
    (use_object_obs e) (cube_initializer e) (goal_initializer e)
    (stick_initializer e) (Some c) (Some g) (Some s) (refs e)
    (samplers e) n (sim e) (rng e) (base e).

Definition set_initializers (ci gi si : option nat)
    (h : gmap nat UniformRandomSampler) (n : nat) (e : Env) : Env :=
  mkEnv (table_full_size e) (table_friction e) (table_offset e)
    (use_object_obs e) ci gi si (cube e) (goal e) (stick e) (refs e)
    h n (sim e) (rng e) (base e).

Definition set_refs (r : References) (e : Env) : Env :=
  mkEnv (table_full_size e) (table_friction e) (table_offset e)
    (use_object_obs e) (cube_initializer e) (goal_initializer e)
    (stick_initializer e) (cube e) (goal e) (stick e) (Some r)
    (samplers e) (next_id e) (sim e) (rng e) (base e).

Definition set_world (b : Base) (s : MjSim) (g : Rng) (e : Env) : Env :=
  mkEnv (table_full_size e) (table_friction e) (table_offset e)
    (use_object_obs e) (cube_initializer e) (goal_initializer e)
    (stick_initializer e) (cube e) (goal e) (stick e) (refs e)
    (samplers e) (next_id e) s g b.

(** The attributes [__init__] assigns before it hands over to the
    constructor of the base class. *)
Definition init (full_size friction : array) (object_obs : bool)
    (s : MjSim) (g : Rng) (b : Base) : Env :=
  mkEnv full_size friction [0; 0; 0.8] object_obs None None None
    None None None None ∅ 0 s g b.

(** *** [reward] *)

Definition reward (e : Env) (action : option array) : option Z :=
  r ← refs e;
  g ← body_xpos (data (sim e)) !! goal_body_id r;
  c ← body_xpos (data (sim e)) !! cube_body_id r;
  compute_reward g c (∅ : gmap string array).

(** *** [_load_model] *)

(** [UniformRandomSampler(name=..., mujoco_objects=obj, x_range=AREA[0],
    y_range=AREA[1], rotation=0, ensure_object_boundary_in_range=True,
    ensure_valid_placement=True, reference_pos=self.table_offset,
    z_offset=0.001)] *)
Definition new_sampler (nm : string) (obj : MujocoObject)
    (area : list array) (e : Env) : option UniformRandomSampler :=
  xr ← area !! 0%nat;
  yr ← area !! 1%nat;
  Some (mkSampler nm [obj] xr yr (RotationValue 0) true true
          (table_offset e) 0.001).

(** A method call on the sampler object with identity [l]. *)
Definition call_sampler (f : UniformRandomSampler → UniformRandomSampler)
    (l : nat) (h : gmap nat UniformRandomSampler)
  : option (gmap nat UniformRandomSampler) :=
  s ← h !! l; Some (<[l := f s]> h).

(** One "Create placement initializer" branch: an existing sampler is
    reset and given the object, otherwise a sampler is constructed. The
    result is the new value of the attribute, the sampler states and the
    next unused identity. *)
Definition create_initializer (attr : option nat) (nm : string)
    (obj : MujocoObject) (area : list array) (e : Env)
    (h : gmap nat UniformRandomSampler) (n : nat)
  : option (option nat * gmap nat UniformRandomSampler * nat) :=
  match attr with
  | Some l =>
      h ← call_sampler reset l h;
      h ← call_sampler (add_objects obj) l h;
      Some (Some l, h, n)
  | None =>
      s ← new_sampler nm obj area e;
      Some (Some n, <[n := s]> h, S n)
  end.

(** [BoxObject(name="cube", size=[CUBE_HALFSIZE] * 3, rgba=(1, 0, 0, 1))],
    the Python object getting the identity [id]. *)
Definition new_cube (id : nat) : MujocoObject :=
  mkObject id BoxObject "cube"
    [CUBE_HALFSIZE; CUBE_HALFSIZE; CUBE_HALFSIZE] [1; 0; 0; 1]
    ObjAll JointsDefault.

(** [CylinderObject(name="goal", size=[GOAL_RADIUS, 0.001],
    rgba=(0, 1, 0, 1), obj_type="visual", joints=None)] *)
Definition new_goal (id : nat) : MujocoObject :=
  mkObject id CylinderObject "goal"
    [GOAL_RADIUS; 0.001] [0; 1; 0; 1] ObjVisual JointsNone.

(** [BoxObject(name="stick", size=[STICK_HALFLENGTH, STICK_HALFWIDTH,
    STICK_HALFWIDTH], rgba=(0, 0, 1, 1))] *)
Definition new_stick (id : nat) : MujocoObject :=
  mkObject id BoxObject "stick"
    [STICK_HALFLENGTH; STICK_HALFWIDTH; STICK_HALFWIDTH] [0; 0; 1; 1]
    ObjAll JointsDefault.

(** The arena, the task model and the visual gripper bounds only build
    the scene description, which belongs to the framework's state: they
    are the single step [build_task]. *)
Definition _load_model (e : Env) : option Env :=
  let e := set_base super_load_model e in
  w ← table_full_size e !! 0%nat;
  let e := set_base (place_robot_at_table w) e in
  let n := next_id e in
  let cube_obj := new_cube n in
  let goal_obj := new_goal (S n) in
  let stick_obj := new_stick (S (S n)) in
  let e := set_objects cube_obj goal_obj stick_obj (S (S (S n))) e in
  '(ci, h, n) ← create_initializer (cube_initializer e) "CubeSampler"
                  cube_obj CUBE_SPAWN_AREA e (samplers e) (next_id e);
  '(gi, h, n) ← create_initializer (goal_initializer e) "GoalSampler"
                  goal_obj GOAL_SPAWN_AREA e h n;
  '(si, h, n) ← create_initializer (stick_initializer e) "StickSampler"
                  stick_obj STICK_SPAWN_AREA e h n;
  let e := set_initializers ci gi si h n e in
  Some (set_base (build_task (table_full_size e) (table_friction e)
                    (table_offset e) [cube_obj; goal_obj; stick_obj]) e).

(** *** [_setup_references] *)

Definition _setup_references (e : Env) : option Env :=
  let e := set_base (super_setup_references (sim e)) e in
  let m := model (sim e) in
  c ← cube e;
  cube_id ← body_name2id m (root_body c);
  g ← goal e;
  goal_id ← body_name2id m (root_body g);
  s ← stick e;
  stick_id ← body_name2id m (root_body s);
  gripper_id ← body_name2id m
                 (gripper_naming_prefix (base e) +:+ "pushing_gripper");
  table_id ← geom_name2id m (table_collision_name (base e));
  Some (set_refs (mkRefs cube_id goal_id stick_id gripper_id table_id) e).

(** *** [_setup_observables] *)

(** Sensors take the observation cache of the current step; those that
    read the simulator see the instance as it is when they are called. *)

Definition cube_pos (e : Env) (obs_cache : gmap string array)
  : option array :=
  r ← refs e; body_xpos (data (sim e)) !! cube_body_id r.

Definition stick_quat (e : Env) (obs_cache : gmap string array)
  : option array :=
  r ← refs e;
  q ← body_xquat (data (sim e)) !! stick_body_id r;
  convert_quat q xyzw.

Definition gripper_to_cube_pos (pf : string) (obs_cache : gmap string array)
  : option array :=
  if contains (pf +:+ "eef_pos") obs_cache && contains "cube_pos" obs_cache
  then a ← obs_cache !! (pf +:+ "eef_pos");
       b ← obs_cache !! "cube_pos";
       sub a b
  else Some (zeros 3).

Definition goal_pos (e : Env) (obs_cache : gmap string array)
  : option array :=
  r ← refs e; body_xpos (data (sim e)) !! goal_body_id r.

Definition gripper_to_goal_pos (pf : string) (obs_cache : gmap string array)
  : option array :=
  if contains (pf +:+ "eef_pos") obs_cache && contains "goal_pos" obs_cache
  then a ← obs_cache !! (pf +:+ "eef_pos");
       b ← obs_cache !! "goal_pos";
       sub a b
  else Some (zeros 3).

Definition cube_to_goal_pos (obs_cache : gmap string array) : option array :=
  if contains "cube_pos" obs_cache && contains "goal_pos" obs_cache
  then a ← obs_cache !! "cube_pos";
       b ← obs_cache !! "goal_pos";
       sub a b
  else Some (zeros 3).

Definition stick_pos (e : Env) (obs_cache : gmap string array)
  : option array :=
  r ← refs e; body_xpos (data (sim e)) !! stick_body_id r.

Definition gripper_to_stick_pos (pf : string) (obs_cache : gmap string array)
  : option array :=
  if contains (pf +:+ "eef_pos") obs_cache && contains "stick_pos" obs_cache
  then a ← obs_cache !! (pf +:+ "eef_pos");
       b ← obs_cache !! "stick_pos";
       sub a b
  else Some (zeros 3).

Definition stick_to_cube_pos (obs_cache : gmap string array) : option array :=
  if contains "stick_pos" obs_cache && contains "cube_pos" obs_cache
  then a ← obs_cache !! "stick_pos";
       b ← obs_cache !! "cube_pos";
       sub a b
  else Some (zeros 3).

Definition stick_to_goal_pos (obs_cache : gmap string array) : option array :=
  if contains "stick_pos" obs_cache && contains "goal_pos" obs_cache
  then a ← obs_cache !! "stick_pos";
       b ← obs_cache !! "goal_pos";
       sub a b
  else Some (zeros 3).

Record Observable := mkObservable {
  ob_name : string;
  ob_sensor : Env → gmap string array → option array;
  sampling_rate : R }.

(** The list [sensors], each with its [__name__]. *)
Definition sensors (pf : string)
  : list (string * (Env → gmap string array → option array)) :=
  [ ("gripper_to_cube_pos", λ _, gripper_to_cube_pos pf);
    ("gripper_to_goal_pos", λ _, gripper_to_goal_pos pf);
    ("cube_to_goal_pos", λ _, cube_to_goal_pos);
    ("gripper_to_stick_pos", λ _, gripper_to_stick_pos pf);
    ("stick_to_cube_pos", λ _, stick_to_cube_pos);
    ("stick_to_goal_pos", λ _, stick_to_goal_pos);
    ("cube_pos", cube_pos);
    ("goal_pos", goal_pos);
    ("stick_pos", stick_pos);
    ("stick_quat", stick_quat) ].

(** [observables] is the dictionary returned by the base class. *)
Definition _setup_observables (e : Env)
    (observables : gmap string Observable) : gmap string Observable :=
  if use_object_obs e then
    let pf := robot_naming_prefix (base e) in
    foldl (λ obs '(nm, s),
             <[nm := mkObservable nm s (control_freq (base e))]> obs)
      observables (sensors pf)
  else observables.

(** *** [_reset_internal] *)

(** Body of the loop over the contact geometries of cube and stick;
    the masks are [0b100]. *)
Definition set_object_masks (m : MjModel) (geom : string) : option MjModel :=
  i ← geom_name2id m geom;
  m ← set_geom_contype i 4 m;
  j ← geom_name2id m geom;
  set_geom_conaffinity j 4 m.

(** Body of the loop over [range(body_geomnum[gripper_body_id])]; the
    mask is [0b111]. *)
Definition set_gripper_mask (gripper : nat) (m : MjModel) (i : nat)
  : option MjModel :=
  adr ← body_geomadr m !! gripper;
  set_geom_contype (i + adr) 7 m.

Definition set_collision_masks (e : Env) (m : MjModel) : option MjModel :=
  c ← cube e;
  s ← stick e;
  m ← for_each set_object_masks m (contact_geoms c ++ contact_geoms s);
  r ← refs e;
  num ← body_geomnum m !! gripper_body_id r;
  m ← for_each (set_gripper_mask (gripper_body_id r)) m (seq 0 num);
  set_geom_contype (table_geom_id r) 7 m.

(** [self.<attr>.sample(...)] needs the sampler object behind the
    attribute. *)
Definition sampler_at (attr : option nat) (e : Env)
  : option UniformRandomSampler :=
  l ← attr; samplers e !! l.

(** The branch [if not self.deterministic_reset]. *)
Definition place_objects (e : Env) (s : MjSim) (g : Rng)
  : option (MjSim * Rng) :=
  cube_sampler ← sampler_at (cube_initializer e) e;
  '(cube_placement, g) ← sample cube_sampler None g;
  '(cube_pos, cube_quat, _) ← cube_placement !! "cube";
  c ← cube e;
  cube_joint ← joints c !! 0%nat;
  d ← set_joint_qpos cube_joint (concatenate cube_pos cube_quat) (data s);
  stick_sampler ← sampler_at (stick_initializer e) e;
  '(stick_placement, g) ← sample stick_sampler (Some cube_placement) g;
  '(stick_pos, stick_quat, _) ← stick_placement !! "stick";
  st ← stick e;
  stick_joint ← joints st !! 0%nat;
  d ← set_joint_qpos stick_joint (concatenate stick_pos stick_quat) d;
  goal_sampler ← sampler_at (goal_initializer e) e;
  '(goal_placement, g) ← sample goal_sampler None g;
  '(goal_pos, goal_quat, _) ← goal_placement !! "goal";
  r ← refs e;
  m ← set_body_pos (goal_body_id r) goal_pos (model s);
  m ← set_body_quat (goal_body_id r) goal_quat m;
  Some (mkSim m d, g).

Definition _reset_internal (e : Env) : option Env :=
  '(b, s, g) ← super_reset_internal (base e) (sim e) (rng e);
  let e := set_world b s g e in
  m ← set_collision_masks e (model s);
  let s := mkSim m (data s) in
  if deterministic_reset b then Some (set_world b s g e)
  else '(s, g) ← place_objects e s g; Some (set_world b s g e).

End Env.
End StickPush.

(** ** The visual gripper bounds *)

Module Visual.
Import Numpy Robosuite StickPush.

(** [a[:, j]] on a two-dimensional array given by its rows. *)
Definition column (j : nat) (a : list array) : option array :=
  mapM (λ row : array, row !! j) a.

(** [a[i, j]] *)
Definition item (i j : nat) (a : list array) : option R :=
  row ← a !! i; row !! j.

(** [a + b], with the broadcasting rules of [sub]. *)
Definition add (a b : array) : option array :=
  if decide (length a = length b) then Some (zip_with Rplus a b)
  else match a, b with
       | [x], _ => Some (map (fun y => x + y) b)
       | _, [y] => Some (map (fun x => x + y) a)
       | _, _ => None
       end.

(** [a / 2] *)
Definition halve (a : array) : array := map (fun x => x / 2) a.

(** A visual box as it is merged into the scene: the arguments of
    [BoxObject(name=..., size=..., rgba=..., obj_type="visual", joints=None)]
    and the ["pos"] attribute set on its element. *)
Record VisualBox := mkVisualBox {
  box_name : string;
  box_size : array;
  box_rgba : array;
  box_pos : array }.

(** The boxes [_vis_gripper_bounds] builds from the class attribute
    [GRIPPER_BOUNDS] and from [self.table_offset], in the order of the loop;
    merging them into the task model is the framework's. *)
Definition gripper_bound_walls (bounds : list array) (table_offset : array)
  : option (list VisualBox) :=
  let color := [0; 0; 0; 0.2] in
  let width := 0.007 in
  let height := 0.001 in
  lo ← column 0 bounds;
  hi ← column 1 bounds;
  center ← halve <$> add lo hi;
  dims ← halve <$> sub hi lo;
  d0 ← dims !! 0%nat;
  d1 ← dims !! 1%nat;
  c0 ← center !! 0%nat;
  c1 ← center !! 1%nat;
  let sizes :=
    [ [width; d1; height]; [d0; width; height];
      [width; d1; height]; [d0; width; height] ] in
  xmin ← item 0 0 bounds;
  ymin ← item 1 0 bounds;
  xmax ← item 0 1 bounds;
  ymax ← item 1 1 bounds;
  let positions :=
    [ [xmin + width; c1; 0.001]; [c0; ymin + width; 0.001];
      [xmax - width; c1; 0.001]; [c0; ymax - width; 0.001] ] in
  mapM (λ '(i, (size, position)),
          pos ← add table_offset position;
          Some (mkVisualBox ("bounds" +:+ pretty i) size color pos))
    (imap (λ i sp, (i, sp)) (zip sizes positions)).

(** [StickPush._vis_gripper_bounds] *)
Definition _vis_gripper_bounds `{Framework} (e : Env)
  : option (list VisualBox) :=
  gripper_bound_walls GRIPPER_BOUNDS (table_offset e).

(** The interval a box occupies along axis [i]: its position minus and plus
    its half-size. *)
Definition box_lo (b : VisualBox) (i : nat) : option R :=
  p ← box_pos b !! i; h ← box_size b !! i; Some (p - h).
Definition box_hi (b : VisualBox) (i : nat) : option R :=
  p ← box_pos b !! i; h ← box_size b !! i; Some (p + h).

(** Box [b] occupies the interval from [lo] to [hi] along axis [i]. *)
Definition occupies (b : VisualBox) (i : nat) (lo hi : R) : Prop :=
  box_lo b i = Some lo ∧ box_hi b i = Some hi.

End Visual.

(** ** A concrete scene

    A small instance of everything the task takes from outside, on which the
    definitions can be evaluated: a framework whose hooks leave the state
    alone and whose sampler puts every object at the lowest corner of its
    declared rectangle, and a simulator with a table, the three objects and a
    two-geometry gripper. *)

Module Example.
Import Python Numpy Mujoco Robosuite StickPush.

(** The lowest corner of the declared rectangle of a sampler, relative to
    its reference origin and lifted by its z-offset; there is none when a
    declared range is empty or malformed. *)
Definition lowest_corner (s : UniformRandomSampler) : option array :=
  match x_range s, y_range s, reference_pos s with
  | [xlo; xhi], [ylo; yhi], [ox; oy; oz] =>
      if leb xlo xhi && leb ylo yhi
      then Some [xlo + ox; ylo + oy; oz + z_offset s]
      else None
  | _, _, _ => None
  end.

Definition place_at (pos : array) (pl : Placements) (obj : MujocoObject)
  : option Placements :=
  Some (<[obj_name obj := (pos, [1; 0; 0; 0], obj)]> pl).

Definition sample_lowest (s : UniformRandomSampler)
    (fixtures : option Placements) (g : nat) : option (Placements * nat) :=
  pos ← lowest_corner s;
  pl ← for_each (place_at pos) (default ∅ fixtures) (mujoco_objects s);
  Some (pl, S g).

Definition framework : Framework := {|
  Base := bool;
  Rng := nat;
  deterministic_reset := λ b, b;
  control_freq := λ _, 20;
  robot_naming_prefix := λ _, "robot0_";
  gripper_naming_prefix := λ _, "gripper0_";
  table_collision_name := λ _, "table_collision";
  root_body := λ o, obj_name o +:+ "_main";
  joints := λ o, match obj_joints o with
                 | JointsDefault => [obj_name o +:+ "_joint0"]
                 | JointsNone => []
                 end;
  contact_geoms := λ o, match obj_type o with
                        | ObjAll => [obj_name o +:+ "_g0"]
                        | ObjVisual => []
                        end;
  super_load_model := λ b, b;
  place_robot_at_table := λ _ b, b;
  build_task := λ _ _ _ _ b, b;
  super_setup_references := λ _ b, b;
  super_reset_internal := λ b s g, Some (b, s, g);
  sample := sample_lowest |}.

(** Bodies: world 0, cube 1, goal 2, stick 3, gripper 4. Geometries: table
    0, cube 1, stick 2, gripper 3 and 4. All masks start at MuJoCo's
    default 1. *)
Definition mj_model : MjModel := {|
  body_ids := list_to_map
    [("world", 0%nat); ("cube_main", 1%nat); ("goal_main", 2%nat);
     ("stick_main", 3%nat); ("gripper0_pushing_gripper", 4%nat)];
  geom_ids := list_to_map
    [("table_collision", 0%nat); ("cube_g0", 1%nat); ("stick_g0", 2%nat);
     ("gripper0_g0", 3%nat); ("gripper0_g1", 4%nat)];
  body_geomnum := [1; 1; 0; 1; 2]%nat;
  body_geomadr := [0; 1; 2; 2; 3]%nat;
  geom_contype := [1; 1; 1; 1; 1]%Z;
  geom_conaffinity := [1; 1; 1; 1; 1]%Z;
  body_pos := replicate 5 [0; 0; 0];
  body_quat := replicate 5 [1; 0; 0; 0] |}.

Definition mj_data : MjData := {|
  qpos := list_to_map
    [("cube_joint0", [0; 0; 0; 1; 0; 0; 0]);
     ("stick_joint0", [0; 0; 0; 1; 0; 0; 0])];
  body_xpos :=
    [[0; 0; 0]; [0.05; 0; 0.83]; [0.10; 0; 0.8]; [-0.1; 0; 0.83];
     [-0.15; 0; 0.9]];
  body_xquat :=
    [[1; 0; 0; 0]; [1; 0; 0; 0]; [1; 0; 0; 0]; [0.5; 0.1; 0.2; 0.3];
     [1; 0; 0; 0]] |}.

Definition mj_sim : MjSim := mkSim mj_model mj_data.

(** The instance as [__init__] leaves it, for a stochastic reset. *)
Definition env_init : @Env framework :=
  @init framework [0.8; 0.8; 0.05] [1; 0.005; 0.0001] true mj_sim 0%nat false.

Definition cube_obj : MujocoObject := new_cube 0.
Definition goal_obj : MujocoObject := new_goal 1.
Definition stick_obj : MujocoObject := new_stick 2.

Definition cube_sampler : UniformRandomSampler :=
  mkSampler "CubeSampler" [cube_obj] [-0.05; 0] [-0.1; 0.1]
    (RotationValue 0) true true [0; 0; 0.8] 0.001.
Definition goal_sampler : UniformRandomSampler :=
  mkSampler "GoalSampler" [goal_obj] [0.07; 0.12] [-0.1; 0.1]
    (RotationValue 0) true true [0; 0; 0.8] 0.001.
Definition stick_sampler : UniformRandomSampler :=
  mkSampler "StickSampler" [stick_obj] [-0.2; -0.08] [-0.1; 0.1]
    (RotationValue 0) true true [0; 0; 0.8] 0.001.

(** The instance after the first [_load_model]. *)
Definition env_loaded : @Env framework :=
  @mkEnv framework [0.8; 0.8; 0.05] [1; 0.005; 0.0001] [0; 0; 0.8] true
    (Some 3%nat) (Some 4%nat) (Some 5%nat)
    (Some cube_obj) (Some goal_obj) (Some stick_obj) None
    (<[5%nat := stick_sampler]>
       (<[4%nat := goal_sampler]> (<[3%nat := cube_sampler]> ∅)))
    6 mj_sim 0%nat false.

Definition references : References := mkRefs 1 2 3 4 0.

(** The instance after [_setup_references]. *)
Definition env_ready : @Env framework := @set_refs framework references env_loaded.

(** The instance after a stochastic [_reset_internal]: the masks are set,
    and cube, stick and goal sit at the lowest corners of their areas. *)
Definition mj_model_reset : MjModel :=
  with_poses
    (<[2%nat := [0.07 + 0; -0.1 + 0; 0.8 + 0.001]]> (body_pos mj_model))
    (body_quat mj_model)
    (with_masks [7; 4; 4; 7; 7]%Z [1; 4; 4; 1; 1]%Z mj_model).

Definition mj_data_reset : MjData := {|
  qpos := <["stick_joint0" :=
              [-0.2 + 0; -0.1 + 0; 0.8 + 0.001; 1; 0; 0; 0]]>
            (<["cube_joint0" :=
                 [-0.05 + 0; -0.1 + 0; 0.8 + 0.001; 1; 0; 0; 0]]>
               (qpos mj_data));
  body_xpos := body_xpos mj_data;
  body_xquat := body_xquat mj_data |}.

Definition env_reset : @Env framework :=
  @set_world framework false (mkSim mj_model_reset mj_data_reset) 3%nat
    env_ready.

(** An observation cache holding the four absolute positions. *)
Definition obs_cache : gmap string array :=
  list_to_map
    [("robot0_eef_pos", [-0.15; 0; 0.9]); ("cube_pos", [0.05; 0; 0.83]);
     ("goal_pos", [0.10; 0; 0.8]); ("stick_pos", [-0.1; 0; 0.83])].

End Example.

(** ** Arrays of binary64

    numpy's float64 is IEEE 754 binary64, which is also the format of the
    primitive floats used here; both round every operation to the nearest
    value, ties to even. This module gives, over arrays of binary64, the
    functions of the task that compute with the coordinates: each follows
    the same lines of the source as its namesake above. *)

Module Binary64.
Import Python.
Import (notations) PrimFloat.

Abbreviation array := (list PrimFloat.float).

(** [a - b], elementwise and rounded, with the shapes of [Numpy.sub]. *)
Definition sub (a b : array) : option array :=
  if decide (length a = length b) then Some (zip_with PrimFloat.sub a b)
  else match a, b with
       | [x], _ => Some (map (fun y => x - y)%float b)
       | _, [y] => Some (map (fun x => x - y)%float a)
       | _, _ => None
       end.

(** [x.dot(x)]: the rounded products are added up from zero, one after the
    other, every sum rounded. (A BLAS that fuses a product into the sum
    rounds once less; the two agree whenever at most one product is not
    zero.) *)
Definition dot (a b : array) : PrimFloat.float :=
  fold_left PrimFloat.add (zip_with PrimFloat.mul a b) 0%float.

(** [np.linalg.norm(x)] of a one-dimensional array: [sqrt(x.dot(x))]. *)
Definition norm (a : array) : PrimFloat.float := PrimFloat.sqrt (dot a a).

(** [np.zeros(n)] *)
Definition zeros (n : nat) : array := replicate n 0%float.

(** Class attribute [GOAL_RADIUS]. *)
Definition GOAL_RADIUS : PrimFloat.float := 0.05%float.

(** [StickPush.check_success] *)
Definition check_success (goal_pos cube_pos : array) : option bool :=
  d ← sub (take 2 goal_pos) (take 2 cube_pos);
  Some (norm d <=? GOAL_RADIUS)%float.

(** The six relative sensors of [_setup_observables]. *)

Definition gripper_to_cube_pos (pf : string) (obs_cache : gmap string array)
  : option array :=
  if contains (pf +:+ "eef_pos") obs_cache && contains "cube_pos" obs_cache
  then a ← obs_cache !! (pf +:+ "eef_pos");
       b ← obs_cache !! "cube_pos";
       sub a b
  else Some (zeros 3).

Definition gripper_to_goal_pos (pf : string) (obs_cache : gmap string array)
  : option array :=
  if contains (pf +:+ "eef_pos") obs_cache && contains "goal_pos" obs_cache
  then a ← obs_cache !! (pf +:+ "eef_pos");
       b ← obs_cache !! "goal_pos";
       sub a b
  else Some (zeros 3).

Definition cube_to_goal_pos (obs_cache : gmap string array) : option array :=
  if contains "cube_pos" obs_cache && contains "goal_pos" obs_cache
  then a ← obs_cache !! "cube_pos";
       b ← obs_cache !! "goal_pos";
       sub a b
  else Some (zeros 3).

Definition gripper_to_stick_pos (pf : string) (obs_cache : gmap string array)
  : option array :=
  if contains (pf +:+ "eef_pos") obs_cache && contains "stick_pos" obs_cache
  then a ← obs_cache !! (pf +:+ "eef_pos");
       b ← obs_cache !! "stick_pos";
       sub a b
  else Some (zeros 3).

Definition stick_to_cube_pos (obs_cache : gmap string array) : option array :=
  if contains "stick_pos" obs_cache && contains "cube_pos" obs_cache
  then a ← obs_cache !! "stick_pos";
       b ← obs_cache !! "cube_pos";
       sub a b
  else Some (zeros 3).

Definition stick_to_goal_pos (obs_cache : gmap string array) : option array :=
  if contains "stick_pos" obs_cache && contains "goal_pos" obs_cache
  then a ← obs_cache !! "stick_pos";
       b ← obs_cache !! "goal_pos";
       sub a b
  else Some (zeros 3).

(** The real number a binary64 stands for: plus or minus [m * 2 ^ e] for a
    finite value of mantissa [m] and exponent [e]. (Zero for an infinity or
    a NaN, which no statement below evaluates.) *)
Definition to_R (x : PrimFloat.float) : R :=
  match FloatOps.Prim2SF x with
  | SpecFloat.S754_finite s m e =>
      let v := if (0 <=? e)%Z then IZR (Z.pos m * 2 ^ e)
               else IZR (Z.pos m) / IZR (2 ^ (- e)) in
      if s then - v else v
  | _ => 0
  end.

(** The observation cache of [Example.obs_cache], as the arrays of binary64
    that the same literals denote. *)
Definition obs_cache : gmap string array :=
  list_to_map
    [("robot0_eef_pos", [-0.15; 0; 0.9]%float);
     ("cube_pos", [0.05; 0; 0.83]%float);
     ("goal_pos", [0.10; 0; 0.8]%float);
     ("stick_pos", [-0.1; 0; 0.83]%float)].

End Binary64.

(** ** Vocabulary of the statements *)

Module Spec.
Import Numpy Mujoco Robosuite StickPush.

(** A relative sensor over the cache keys [k1] and [k2]: the zero vector of
    length three when a key is absent, the difference of the two cached
    arrays when both are present. *)
Definition relative_sensor (sensor : gmap string array → option array)
    (k1 k2 : string) : Prop :=
  ∀ cache : gmap string array,
    (cache !! k1 = None ∨ cache !! k2 = None → sensor cache = Some [0; 0; 0])
    ∧ (∀ a b, cache !! k1 = Some a → cache !! k2 = Some b →
              sensor cache = sub a b).

(** The displacement between two cached arrays, as a relative sensor over the
    keys [k1] and [k2] reports it: three zeros when a key is absent; when
    both are present with arrays of one length, the array of the same length
    whose every element is the element of the value under [k1] minus the
    element of the value under [k2]; and when one of them has a single
    element, that element taken against every element of the other. *)
Definition relative_displacement (sensor : gmap string array → option array)
    (k1 k2 : string) : Prop :=
  ∀ cache : gmap string array,
    (cache !! k1 = None ∨ cache !! k2 = None → sensor cache = Some [0; 0; 0])
    ∧ (∀ a b, cache !! k1 = Some a → cache !! k2 = Some b →
              length a = length b →
              sensor cache = Some (zip_with Rminus a b))
    ∧ (∀ x b, cache !! k1 = Some [x] → cache !! k2 = Some b →
              sensor cache = Some (map (λ y, x - y) b))
    ∧ (∀ a y, cache !! k1 = Some a → cache !! k2 = Some [y] →
              sensor cache = Some (map (λ x, x - y) a)).

Section Lifecycle.
Context `{Framework}.

(** Modelled from the spec: the promise of [sampler.sample(fixtures)] of the
    framework's placement sampler (robosuite.utils.placement_samplers, not
    part of the sources at hand), "producing a randomized, constraint-valid
    pose for one or more objects within a declared spatial range": a
    successful call returns, under the name of each object of the sampler, a
    pose for that object whose position lies in the declared x and y ranges
    taken from the reference origin. *)
Definition sampler_contract : Prop :=
  ∀ (s : UniformRandomSampler) (fixtures : option Placements) (g g' : Rng)
    (placement : Placements),
    sample s fixtures g = Some (placement, g') →
    ∀ obj, obj ∈ mujoco_objects s →
      ∃ pose, placement !! obj_name obj = Some pose
              ∧ within_declared_ranges s pose.1.1.

(** The states an instance goes through: constructed by [init], then the
    framework calls the hooks, and between the calls it may replace or step
    the simulator, draw random numbers and change its own state. *)
Inductive reachable : Env → Prop :=
| reachable_init full_size friction object_obs s g b :
    reachable (init full_size friction object_obs s g b)
| reachable_load_model e e' :
    reachable e → _load_model e = Some e' → reachable e'
| reachable_setup_references e e' :
    reachable e → _setup_references e = Some e' → reachable e'
| reachable_reset_internal e e' :
    reachable e → _reset_internal e = Some e' → reachable e'
| reachable_framework e b s g :
    reachable e → reachable (set_world b s g e).

(** What one stochastic reset draws and where it writes. *)
Record Placing := mkPlacing {
  cube_sampler : UniformRandomSampler;
  cube_placement : Placements;
  cube_pose : array * array * MujocoObject;
  cube_joint : string;
  rng_after_cube : Rng;
  stick_sampler : UniformRandomSampler;
  stick_placement : Placements;
  stick_pose : array * array * MujocoObject;
  stick_joint : string;
  rng_after_stick : Rng;
  goal_sampler : UniformRandomSampler;
  goal_placement : Placements;
  goal_pose : array * array * MujocoObject;
  goal_body : nat }.

Definition position (pose : array * array * MujocoObject) : array := pose.1.1.
Definition orientation (pose : array * array * MujocoObject) : array :=
  pose.1.2.

(** The three draws of a reset that starts from simulator [s0] and random
    state [g0] and ends in [s'] and [g'], in the order of the random states
    they consume, and the writes that carry them into the simulator. *)
Definition places_objects (e : Env) (s0 : MjSim) (g0 : Rng) (t : Placing)
    (s' : MjSim) (g' : Rng) : Prop :=
  (* the cube: drawn first, without fixtures, written to its free joint *)
  sampler_at (cube_initializer e) e = Some (cube_sampler t)
  ∧ sample (cube_sampler t) None g0 = Some (cube_placement t, rng_after_cube t)
  ∧ cube_placement t !! "cube" = Some (cube_pose t)
  ∧ (∃ c, cube e = Some c ∧ joints c !! 0%nat = Some (cube_joint t))
  (* the stick: drawn next, with the cube placement as fixtures *)
  ∧ sampler_at (stick_initializer e) e = Some (stick_sampler t)
  ∧ sample (stick_sampler t) (Some (cube_placement t)) (rng_after_cube t)
    = Some (stick_placement t, rng_after_stick t)
  ∧ stick_placement t !! "stick" = Some (stick_pose t)
  ∧ (∃ st, stick e = Some st ∧ joints st !! 0%nat = Some (stick_joint t))
  (* the goal: drawn last, without fixtures *)
  ∧ sampler_at (goal_initializer e) e = Some (goal_sampler t)
  ∧ sample (goal_sampler t) None (rng_after_stick t)
    = Some (goal_placement t, g')
  ∧ goal_placement t !! "goal" = Some (goal_pose t)
  ∧ (∃ r, refs e = Some r ∧ goal_body_id r = goal_body t)
  (* joint state: the cube pose, then the stick pose, nothing else *)
  ∧ qpos (data s')
    = <[stick_joint t :=
          position (stick_pose t) ++ orientation (stick_pose t)]>
        (<[cube_joint t :=
             position (cube_pose t) ++ orientation (cube_pose t)]>
           (qpos (data s0)))
  (* fixed body poses: the goal pose in the row of the goal body *)
  ∧ (∃ row, broadcast_row 3 (position (goal_pose t)) = Some row
            ∧ body_pos (model s')
              = <[goal_body t := row]> (body_pos (model s0)))
  ∧ (∃ row, broadcast_row 4 (orientation (goal_pose t)) = Some row
            ∧ body_quat (model s')
              = <[goal_body t := row]> (body_quat (model s0)))
  (* nothing else in the simulator changes *)
  ∧ model s' = with_poses (body_pos (model s')) (body_quat (model s'))
                 (model s0)
  ∧ body_xpos (data s') = body_xpos (data s0)
  ∧ body_xquat (data s') = body_xquat (data s0).

(** Geometry [i] belongs to the gripper body: it lies in the range of
    [body_geomnum] geometries that starts at [body_geomadr]. *)
Definition gripper_geom (m : MjModel) (r : References) (i : nat) : Prop :=
  ∃ num adr k,
    body_geomnum m !! gripper_body_id r = Some num
    ∧ body_geomadr m !! gripper_body_id r = Some adr
    ∧ (k < num)%nat ∧ i = (k + adr)%nat.

(** Geometry [i] is a contact geometry of the cube or of the stick. *)
Definition object_geom (m : MjModel) (c st : MujocoObject) (i : nat) : Prop :=
  ∃ geom, geom ∈ contact_geoms c ++ contact_geoms st
          ∧ geom_name2id m geom = Some i.

(** A sampler configured as [_load_model] configures the three samplers:
    the given name and sampling area, no rotation, both validity checks, the
    given reference origin and a z-offset of 1 mm. *)
Definition configured (s : UniformRandomSampler) (nm : string)
    (area : list array) (origin : array) : Prop :=
  name s = nm
  ∧ [x_range s; y_range s] = area
  ∧ rotation s = RotationValue 0
  ∧ ensure_object_boundary_in_range s = true
  ∧ ensure_valid_placement s = true
  ∧ reference_pos s = origin
  ∧ z_offset s = 0.001.

(** The attribute [attr] refers to a sampler that holds exactly the object
    of attribute [obj], which carries the name [objname], and that is
    configured with the name [nm] and the sampling area [area] around the
    table offset. *)
Definition initializer_for (e : Env) (attr : option nat)
    (obj : option MujocoObject) (nm objname : string) (area : list array)
  : Prop :=
  ∃ l s o,
    attr = Some l ∧ samplers e !! l = Some s ∧ obj = Some o
    ∧ mujoco_objects s = [o] ∧ obj_name o = objname
    ∧ configured s nm area (table_offset e).

(** What holds of the placement samplers throughout the life of an
    instance: the table offset is the one of [__init__], and either no
    sampler has been created yet or the three attributes refer to three
    different samplers, each configured for its object. *)
Definition initializers_ok (e : Env) : Prop :=
  table_offset e = [0; 0; 0.8]
  ∧ ((cube_initializer e = None ∧ goal_initializer e = None
      ∧ stick_initializer e = None)
     ∨ (initializer_for e (cube_initializer e) (cube e)
          "CubeSampler" "cube" CUBE_SPAWN_AREA
        ∧ initializer_for e (goal_initializer e) (goal e)
            "GoalSampler" "goal" GOAL_SPAWN_AREA
        ∧ initializer_for e (stick_initializer e) (stick e)
            "StickSampler" "stick" STICK_SPAWN_AREA
        ∧ cube_initializer e ≠ goal_initializer e
        ∧ cube_initializer e ≠ stick_initializer e
        ∧ goal_initializer e ≠ stick_initializer e)).

(** A position inside the rectangle [xlo, xhi] x [ylo, yhi] laid out from
    [origin]. *)
Definition in_rectangle (pos : array) (xlo xhi ylo yhi : R) (origin : array)
  : Prop :=
  ∃ x y z ox oy oz,
    pos = [x; y; z] ∧ origin = [ox; oy; oz]
    ∧ xlo + ox <= x <= xhi + ox ∧ ylo + oy <= y <= yhi + oy.

End Lifecycle.
End Spec.

(** ** Vocabulary of the further statements *)

Module SpecMore.
Import Numpy.

(** A relative sensor over the keys [k1] and [k2] raises only on cached
    values whose shapes cannot be subtracted: both keys present, with
    different lengths, neither of them of length one. *)
Definition raises_on_shapes_only (sensor : gmap string array → option array)
    (k1 k2 : string) : Prop :=
  ∀ cache : gmap string array,
    sensor cache = None
    ↔ ∃ a b, cache !! k1 = Some a ∧ cache !! k2 = Some b
             ∧ length a ≠ length b ∧ length a ≠ 1%nat ∧ length b ≠ 1%nat.

Section Store.
Import Robosuite StickPush.
Context `{Framework}.

(** The sampler objects an instance refers to: none before the first
    [_load_model], and afterwards exactly three different ones, which are
    all the samplers there are. *)
Definition sampler_store_ok (e : Env) : Prop :=
  (cube_initializer e = None ∧ goal_initializer e = None
   ∧ stick_initializer e = None ∧ samplers e = ∅)
  ∨ (∃ lc lg ls,
       cube_initializer e = Some lc ∧ goal_initializer e = Some lg
       ∧ stick_initializer e = Some ls
       ∧ lc ≠ lg ∧ lc ≠ ls ∧ lg ≠ ls
       ∧ dom (samplers e) = {[lc; lg; ls]}).

End Store.
End SpecMore.

(** * Properties *)

(** ** Arrays *)

Module NumpyFacts.
Import Numpy.

Lemma leb_true (x y : R) : leb x y = true ↔ x <= y.
Proof. unfold leb. destruct (Rle_dec x y); split; intros; try done. Qed.

Lemma leb_false (x y : R) : leb x y = false ↔ y < x.
Proof.
  unfold leb. destruct (Rle_dec x y); split; intros; try done; lra.
Qed.

(** The difference of two arrays of three elements. *)
Lemma sub_3 (a1 a2 a3 b1 b2 b3 : R) :
  sub [a1; a2; a3] [b1; b2; b3] = Some [a1 - b1; a2 - b2; a3 - b3].
Proof. reflexivity. Qed.

(** The norm of a planar vector. *)
Lemma norm_2 (x y : R) : norm [x; y] = sqrt (x * x + y * y).
Proof. unfold norm, dot. simpl. f_equal. ring. Qed.

End NumpyFacts.

(** ** Success and reward *)

Module SuccessFacts.
Import Numpy NumpyFacts Success.
Import (notations) PrimFloat.

(** On points of three coordinates the check is defined and compares the
    planar norm with the radius. *)
Lemma check_success_3d (gx gy gz cx cy cz : R) :
  check_success [gx; gy; gz] [cx; cy; cz]
  = Some (leb (sqrt ((gx - cx) * (gx - cx) + (gy - cy) * (gy - cy)))
            GOAL_RADIUS).
Proof. unfold check_success. simpl. by rewrite norm_2. Qed.

(** The real numbers that two of the literals below stand for. *)
Lemma to_R_radius :
  Binary64.to_R 0.05%float = 7205759403792794 / 144115188075855872.
Proof.
  unfold Binary64.to_R.
  replace (FloatOps.Prim2SF 0.05%float)
    with (SpecFloat.S754_finite false 7205759403792794 (-57))
    by (vm_compute; reflexivity).
  reflexivity.
Qed.

Lemma to_R_tiny :
  Binary64.to_R (-1e-20)%float
  = - (6646139978924579 / 664613997892457936451903530140172288).
Proof.
  unfold Binary64.to_R.
  replace (FloatOps.Prim2SF (-1e-20)%float)
    with (SpecFloat.S754_finite true 6646139978924579 (-119))
    by (vm_compute; reflexivity).
  reflexivity.
Qed.

Lemma to_R_zero : Binary64.to_R 0%float = 0.
Proof. reflexivity. Qed.

(** C1, as the code has it. For all 3D points [goal_pos] and [cube_pos] of
    binary64 coordinates, [check_success(goal_pos, cube_pos)] returns a
    boolean, never an error: true if and only if the planar distance as
    numpy computes it is at most the binary64 0.05, where the computed
    distance is the rounded square root of the rounded sum of the rounded
    squares of the rounded differences of the x and of the y coordinates; a
    computed distance of exactly that 0.05 gives true; the z components do
    not affect the result. *)
Theorem check_success_planar_distance
    (gx gy gz cx cy cz : PrimFloat.float) :
  let dx := (gx - cx)%float in
  let dy := (gy - cy)%float in
  let dist := PrimFloat.sqrt (0 + dx * dx + dy * dy)%float in
  Binary64.check_success [gx; gy; gz] [cx; cy; cz]
  = Some (dist <=? 0.05)%float
  ∧ (dist = 0.05%float →
     Binary64.check_success [gx; gy; gz] [cx; cy; cz] = Some true)
  ∧ (∀ gz' cz' : PrimFloat.float,
       Binary64.check_success [gx; gy; gz'] [cx; cy; cz']
       = Binary64.check_success [gx; gy; gz] [cx; cy; cz]).
Proof.
  intros dx dy dist.
  assert (Hcheck : ∀ z z' : PrimFloat.float,
            Binary64.check_success [gx; gy; z] [cx; cy; z']
            = Some (dist <=? 0.05)%float) by reflexivity.
  split_and!.
  - apply Hcheck.
  - intros Hdist. rewrite Hcheck, Hdist. reflexivity.
  - intros gz' cz'. by rewrite !Hcheck.
Qed.

(** The boundary case on the points (0.10, 0, 0.8) and (0.05, 0, 0.83): the
    computed distance is the radius itself, and the check succeeds. *)
Lemma check_success_planar_distance_witness :
  Binary64.check_success [0.10; 0; 0.8]%float [0.05; 0; 0.83]%float
  = Some true.
Proof.
  apply (proj1 (proj2 (check_success_planar_distance
                         0.10 0 0.8 0.05 0 0.83))).
  reflexivity.
Defined.

(** C1, as the claim states it, fails in both directions, since the check
    compares a rounded distance with a rounded radius.
    - The points (0.8, 0, 0.8) and (0.75, 0, 0.8) are at a planar distance of
      exactly 0.05, and on the arrays of binary64 that these literals denote
      the check returns false: the stored 0.8 lies above 0.8.
    - On the points (0.05, 0, 0.8) and (-1e-20, 0, 0.8) the check returns
      true, although the planar distance of the stored coordinates is larger
      than the stored radius, which is itself larger than 0.05: the
      difference of the x coordinates rounds down to the radius. *)
Lemma check_success_rounding_counterexample :
  (Binary64.check_success [0.8; 0; 0.8]%float [0.75; 0; 0.8]%float
   = Some false
   ∧ sqrt ((0.8 - 0.75) ^ 2 + (0 - 0) ^ 2) = 0.05)
  ∧ (Binary64.check_success [0.05; 0; 0.8]%float [-1e-20; 0; 0.8]%float
     = Some true
     ∧ 0.05 < Binary64.to_R Binary64.GOAL_RADIUS
     ∧ Binary64.to_R Binary64.GOAL_RADIUS
       < sqrt ((Binary64.to_R 0.05%float - Binary64.to_R (-1e-20)%float) ^ 2
               + (Binary64.to_R 0%float - Binary64.to_R 0%float) ^ 2)).
Proof.
  split; split.
  - vm_compute. reflexivity.
  - replace ((0.8 - 0.75) ^ 2 + (0 - 0) ^ 2) with (0.05 ^ 2) by lra.
    apply sqrt_pow2. lra.
  - vm_compute. reflexivity.
  - unfold Binary64.GOAL_RADIUS. rewrite to_R_radius, to_R_tiny, to_R_zero.
    split; [lra|].
    match goal with
    | |- _ < sqrt (?d ^ 2 + _) =>
        replace (d ^ 2 + (0 - 0) ^ 2) with (d ^ 2) by lra;
        rewrite sqrt_pow2 by lra
    end.
    lra.
Qed.

(** C2. For all [goal_pos], [cube_pos] and [info],
    [compute_reward(goal_pos, cube_pos, info)] is 0 when
    [check_success(goal_pos, cube_pos)] is true and -1 otherwise (an error
    of the check is the error of the reward); [info] does not affect the
    result, of whatever type it is; the value is 0 or -1, and on 3D points
    a value is always returned. *)
Theorem compute_reward_sparse {I I' : Type} (goal_pos cube_pos : array)
    (info : I) (info' : I') :
  compute_reward goal_pos cube_pos info
  = (λ b : bool, if b then 0%Z else (-1)%Z)
      <$> check_success goal_pos cube_pos
  ∧ compute_reward goal_pos cube_pos info'
    = compute_reward goal_pos cube_pos info
  ∧ (∀ r, compute_reward goal_pos cube_pos info = Some r
          → r = 0%Z ∨ r = (-1)%Z)
  ∧ (∀ gx gy gz cx cy cz : R,
       goal_pos = [gx; gy; gz] → cube_pos = [cx; cy; cz] →
       compute_reward goal_pos cube_pos info = Some 0%Z
       ∨ compute_reward goal_pos cube_pos info = Some (-1)%Z).
Proof.
  unfold compute_reward.
  destruct (check_success goal_pos cube_pos) as [[]|] eqn:Hc; simpl;
    repeat split; try done.
  - intros r [= <-]. by left.
  - intros; by left.
  - intros r [= <-]. by right.
  - intros; by right.
  - intros gx gy gz cx cy cz -> ->. by rewrite check_success_3d in Hc.
Qed.

End SuccessFacts.


(** ** Sensors and reward *)

Module SensorFacts.
Import Python Numpy NumpyFacts Mujoco Robosuite StickPush Spec.
Import (notations) PrimFloat.

Lemma contains_Some {V : Type} (k : string) (d : gmap string V) (v : V) :
  d !! k = Some v → contains k d = true.
Proof. unfold contains. by intros ->. Qed.

Lemma contains_None {V : Type} (k : string) (d : gmap string V) :
  d !! k = None → contains k d = false.
Proof. unfold contains. by intros ->. Qed.

(** The common shape of the six relative sensors. *)
Lemma relative_sensor_intro (sensor : gmap string array → option array)
    (k1 k2 : string) :
  (∀ cache, sensor cache
            = if contains k1 cache && contains k2 cache
              then a ← cache !! k1; b ← cache !! k2; sub a b
              else Some (zeros 3)) →
  relative_sensor sensor k1 k2.
Proof.
  intros Hdef cache. rewrite Hdef. split.
  - intros [Hk | Hk]; rewrite (contains_None _ _ Hk);
      by rewrite ?andb_false_r.
  - intros a b Ha Hb.
    rewrite (contains_Some _ _ _ Ha), (contains_Some _ _ _ Hb), Ha, Hb.
    reflexivity.
Qed.

(** The six sensors have this shape, so each reports a displacement. *)
Lemma relative_displacement_intro
    (sensor : gmap string array → option array) (k1 k2 : string) :
  (∀ cache, sensor cache
            = if contains k1 cache && contains k2 cache
              then a ← cache !! k1; b ← cache !! k2; sub a b
              else Some (zeros 3)) →
  relative_displacement sensor k1 k2.
Proof.
  intros Hdef cache. rewrite Hdef. split_and!.
  - intros [Hk | Hk]; rewrite (contains_None _ _ Hk);
      by rewrite ?andb_false_r.
  - intros a b Ha Hb Hlen.
    rewrite (contains_Some _ _ _ Ha), (contains_Some _ _ _ Hb), Ha, Hb.
    simpl. unfold sub. by rewrite decide_True.
  - intros x b Ha Hb.
    rewrite (contains_Some _ _ _ Ha), (contains_Some _ _ _ Hb), Ha, Hb.
    by destruct b as [|y [|y' b]].
  - intros a y Ha Hb.
    rewrite (contains_Some _ _ _ Ha), (contains_Some _ _ _ Hb), Ha, Hb.
    by destruct a as [|x [|x' a]].
Qed.

(** The same shape over binary64, for two cached 3D positions. *)
Lemma binary64_sensor_3d
    (sensor : gmap string Binary64.array → option Binary64.array)
    (k1 k2 : string) (cache : gmap string Binary64.array)
    (a1 a2 a3 b1 b2 b3 : PrimFloat.float) :
  (∀ cache, sensor cache
            = if contains k1 cache && contains k2 cache
              then a ← cache !! k1; b ← cache !! k2; Binary64.sub a b
              else Some (Binary64.zeros 3)) →
  cache !! k1 = Some [a1; a2; a3] →
  cache !! k2 = Some [b1; b2; b3] →
  sensor cache = Some [a1 - b1; a2 - b2; a3 - b3]%float.
Proof.
  intros Hdef Ha Hb.
  by rewrite Hdef, (contains_Some _ _ _ Ha), (contains_Some _ _ _ Hb), Ha, Hb.
Qed.

Section Sensors.
Context `{Framework}.

(** C4. For every observation cache, each of the six relative-displacement
    sensors returns the zero 3-vector, without failing, whenever at least one
    of its two dependency keys is absent from the cache, and the difference of
    the two cached values when both keys are present: element by element,
    the value under the first key minus the value under the second, for two
    arrays of the same length, a single element being taken against every
    element of the other array. *)
Theorem relative_sensors_zero_when_absent (pf : string) :
  relative_displacement (gripper_to_cube_pos pf)
    (pf +:+ "eef_pos") "cube_pos"
  ∧ relative_displacement (gripper_to_goal_pos pf)
      (pf +:+ "eef_pos") "goal_pos"
  ∧ relative_displacement cube_to_goal_pos "cube_pos" "goal_pos"
  ∧ relative_displacement (gripper_to_stick_pos pf)
      (pf +:+ "eef_pos") "stick_pos"
  ∧ relative_displacement stick_to_cube_pos "stick_pos" "cube_pos"
  ∧ relative_displacement stick_to_goal_pos "stick_pos" "goal_pos".
Proof. repeat split; by apply relative_displacement_intro. Qed.

(** C10, as the code has it. For every cache that holds both operands as 3D
    positions, each gripper_to_X_pos sensor returns the end-effector position
    minus the position of X, cube_to_goal_pos returns cube minus goal,
    stick_to_cube_pos returns stick minus cube and stick_to_goal_pos returns
    stick minus goal: in exact arithmetic, and in binary64 with every
    component rounded. *)
Theorem relative_sensors_direction (pf : string) (cache : gmap string array)
    (fcache : gmap string Binary64.array) :
  ((∀ e1 e2 e3 x1 x2 x3 : R,
      cache !! (pf +:+ "eef_pos") = Some [e1; e2; e3] →
      (cache !! "cube_pos" = Some [x1; x2; x3] →
       gripper_to_cube_pos pf cache = Some [e1 - x1; e2 - x2; e3 - x3])
      ∧ (cache !! "goal_pos" = Some [x1; x2; x3] →
         gripper_to_goal_pos pf cache = Some [e1 - x1; e2 - x2; e3 - x3])
      ∧ (cache !! "stick_pos" = Some [x1; x2; x3] →
         gripper_to_stick_pos pf cache = Some [e1 - x1; e2 - x2; e3 - x3]))
   ∧ (∀ c1 c2 c3 g1 g2 g3 : R,
        cache !! "cube_pos" = Some [c1; c2; c3] →
        cache !! "goal_pos" = Some [g1; g2; g3] →
        cube_to_goal_pos cache = Some [c1 - g1; c2 - g2; c3 - g3])
   ∧ (∀ s1 s2 s3 c1 c2 c3 : R,
        cache !! "stick_pos" = Some [s1; s2; s3] →
        cache !! "cube_pos" = Some [c1; c2; c3] →
        stick_to_cube_pos cache = Some [s1 - c1; s2 - c2; s3 - c3])
   ∧ (∀ s1 s2 s3 g1 g2 g3 : R,
        cache !! "stick_pos" = Some [s1; s2; s3] →
        cache !! "goal_pos" = Some [g1; g2; g3] →
        stick_to_goal_pos cache = Some [s1 - g1; s2 - g2; s3 - g3]))
  ∧ ((∀ e1 e2 e3 x1 x2 x3 : PrimFloat.float,
        fcache !! (pf +:+ "eef_pos") = Some [e1; e2; e3] →
        (fcache !! "cube_pos" = Some [x1; x2; x3] →
         Binary64.gripper_to_cube_pos pf fcache
         = Some [e1 - x1; e2 - x2; e3 - x3]%float)
        ∧ (fcache !! "goal_pos" = Some [x1; x2; x3] →
           Binary64.gripper_to_goal_pos pf fcache
           = Some [e1 - x1; e2 - x2; e3 - x3]%float)
        ∧ (fcache !! "stick_pos" = Some [x1; x2; x3] →
           Binary64.gripper_to_stick_pos pf fcache
           = Some [e1 - x1; e2 - x2; e3 - x3]%float))
     ∧ (∀ c1 c2 c3 g1 g2 g3 : PrimFloat.float,
          fcache !! "cube_pos" = Some [c1; c2; c3] →
          fcache !! "goal_pos" = Some [g1; g2; g3] →
          Binary64.cube_to_goal_pos fcache
          = Some [c1 - g1; c2 - g2; c3 - g3]%float)
     ∧ (∀ s1 s2 s3 c1 c2 c3 : PrimFloat.float,
          fcache !! "stick_pos" = Some [s1; s2; s3] →
          fcache !! "cube_pos" = Some [c1; c2; c3] →
          Binary64.stick_to_cube_pos fcache
          = Some [s1 - c1; s2 - c2; s3 - c3]%float)
     ∧ (∀ s1 s2 s3 g1 g2 g3 : PrimFloat.float,
          fcache !! "stick_pos" = Some [s1; s2; s3] →
          fcache !! "goal_pos" = Some [g1; g2; g3] →
          Binary64.stick_to_goal_pos fcache
          = Some [s1 - g1; s2 - g2; s3 - g3]%float)).
Proof.
  pose proof (relative_sensor_intro (gripper_to_cube_pos pf) _ _
                (λ _, eq_refl) cache) as [_ Hec].
  pose proof (relative_sensor_intro (gripper_to_goal_pos pf) _ _
                (λ _, eq_refl) cache) as [_ Heg].
  pose proof (relative_sensor_intro (gripper_to_stick_pos pf) _ _
                (λ _, eq_refl) cache) as [_ Hes].
  pose proof (relative_sensor_intro cube_to_goal_pos _ _
                (λ _, eq_refl) cache) as [_ Hcg].
  pose proof (relative_sensor_intro stick_to_cube_pos _ _
                (λ _, eq_refl) cache) as [_ Hsc].
  pose proof (relative_sensor_intro stick_to_goal_pos _ _
                (λ _, eq_refl) cache) as [_ Hsg].
  split; (split; [|split; [|split]]).
  - intros e1 e2 e3 x1 x2 x3 He. repeat split; intros Hx.
    + by rewrite (Hec _ _ He Hx), sub_3.
    + by rewrite (Heg _ _ He Hx), sub_3.
    + by rewrite (Hes _ _ He Hx), sub_3.
  - intros * Hc Hg. by rewrite (Hcg _ _ Hc Hg), sub_3.
  - intros * Hs Hc. by rewrite (Hsc _ _ Hs Hc), sub_3.
  - intros * Hs Hg. by rewrite (Hsg _ _ Hs Hg), sub_3.
  - intros e1 e2 e3 x1 x2 x3 He. repeat split; intros Hx.
    + by apply (binary64_sensor_3d _ (pf +:+ "eef_pos") "cube_pos").
    + by apply (binary64_sensor_3d _ (pf +:+ "eef_pos") "goal_pos").
    + by apply (binary64_sensor_3d _ (pf +:+ "eef_pos") "stick_pos").
  - intros * Hc Hg.
    by apply (binary64_sensor_3d _ "cube_pos" "goal_pos").
  - intros * Hs Hc.
    by apply (binary64_sensor_3d _ "stick_pos" "cube_pos").
  - intros * Hs Hg.
    by apply (binary64_sensor_3d _ "stick_pos" "goal_pos").
Qed.

(** C8. The stick_quat sensor returns the orientation of the stick body with
    its components reordered from the simulator's scalar-first (w, x, y, z)
    to the vector-first (x, y, z, w) convention: whenever the native
    quaternion buffer holds (w, x, y, z) for the stick body, the sensor
    returns (x, y, z, w), whatever the observation cache. *)
Theorem stick_quat_vector_first (e : Env) (cache : gmap string array)
    (r : References) (w x y z : R) :
  refs e = Some r →
  body_xquat (data (sim e)) !! stick_body_id r = Some [w; x; y; z] →
  stick_quat e cache = Some [x; y; z; w].
Proof.
  intros Hr Hq. unfold stick_quat. rewrite Hr. simpl. by rewrite Hq.
Qed.

(** C3. For a fixed simulator state, [reward(action)] is the same for every
    action argument, [None] included: it depends only on the body
    identifiers and the absolute body positions of the simulator, and is
    [compute_reward] applied to the current absolute positions of the goal
    body and of the cube body. *)
Theorem reward_ignores_action (e : Env) (action : option array) :
  (∀ action' : option array, reward e action' = reward e action)
  ∧ (∀ (e' : Env) (action' : option array),
       refs e' = refs e →
       body_xpos (data (sim e')) = body_xpos (data (sim e)) →
       reward e' action' = reward e action)
  ∧ (∀ (r : References) (g c : array),
       refs e = Some r →
       body_xpos (data (sim e)) !! goal_body_id r = Some g →
       body_xpos (data (sim e)) !! cube_body_id r = Some c →
       reward e action = compute_reward g c (∅ : gmap string array)).
Proof.
  unfold reward. repeat split.
  - by intros e' _ -> ->.
  - intros r g c Hr Hg Hc. rewrite Hr. simpl. rewrite Hg. simpl.
    by rewrite Hc.
Qed.

End Sensors.

Lemma relative_sensors_direction_witness :
  (gripper_to_cube_pos "robot0_" Example.obs_cache
   = Some [-0.15 - 0.05; 0 - 0; 0.9 - 0.83]
   ∧ stick_to_goal_pos Example.obs_cache
     = Some [-0.1 - 0.10; 0 - 0; 0.83 - 0.8])
  ∧ Binary64.stick_to_cube_pos Binary64.obs_cache
    = Some [-0.1 - 0.05; 0 - 0; 0.83 - 0.83]%float.
Proof.
  destruct (relative_sensors_direction "robot0_" Example.obs_cache
              Binary64.obs_cache)
    as [(Hgripper & _ & _ & Hstick) (_ & _ & Hcube & _)].
  split; [split|].
  - by apply (Hgripper (-0.15) 0 0.9 0.05 0 0.83).
  - by apply (Hstick (-0.1) 0 0.83 0.10 0 0.8).
  - by apply (Hcube (-0.1) 0 0.83 0.05 0 0.83)%float.
Defined.

(** C10, as the claim states it, fails in its last part: each sensor rounds
    its own differences, so stick_to_goal_pos - stick_to_cube_pos need not be
    cube_to_goal_pos. On the cache that holds the cube at (0.05, 0, 0.83),
    the goal at (0.10, 0, 0.8) and the stick at (-0.1, 0, 0.83), the first
    component of the one is -0.04999999999999999 and of the other -0.05. *)
Lemma relative_sensors_identity_counterexample :
  (to_goal ← Binary64.stick_to_goal_pos Binary64.obs_cache;
   to_cube ← Binary64.stick_to_cube_pos Binary64.obs_cache;
   Binary64.sub to_goal to_cube)
  = Some [-0.04999999999999999; 0; 0.029999999999999916]%float
  ∧ Binary64.cube_to_goal_pos Binary64.obs_cache
    = Some [-0.05; 0; 0.029999999999999916]%float
  ∧ (to_goal ← Binary64.stick_to_goal_pos Binary64.obs_cache;
     to_cube ← Binary64.stick_to_cube_pos Binary64.obs_cache;
     Binary64.sub to_goal to_cube)
    ≠ Binary64.cube_to_goal_pos Binary64.obs_cache.
Proof.
  assert (Hsum :
    (to_goal ← Binary64.stick_to_goal_pos Binary64.obs_cache;
     to_cube ← Binary64.stick_to_cube_pos Binary64.obs_cache;
     Binary64.sub to_goal to_cube)
    = Some [-0.04999999999999999; 0; 0.029999999999999916]%float)
    by (vm_compute; reflexivity).
  assert (Hdirect :
    Binary64.cube_to_goal_pos Binary64.obs_cache
    = Some [-0.05; 0; 0.029999999999999916]%float)
    by (vm_compute; reflexivity).
  split_and!; [done | done |].
  rewrite Hsum, Hdirect. intros Heq.
  apply (f_equal (λ r, match r with
                       | Some (x :: _) => (x =? -0.05)%float
                       | _ => false
                       end)) in Heq.
  vm_compute in Heq. discriminate Heq.
Qed.

Lemma stick_quat_vector_first_witness :
  @stick_quat Example.framework Example.env_ready ∅
  = Some [0.1; 0.2; 0.3; 0.5].
Proof.
  by apply (@stick_quat_vector_first Example.framework Example.env_ready ∅
              Example.references 0.5 0.1 0.2 0.3).
Defined.

Lemma reward_ignores_action_witness :
  @reward Example.framework Example.env_ready (Some [1; 2])
  = compute_reward [0.10; 0; 0.8] [0.05; 0; 0.83] (∅ : gmap string array).
Proof.
  by apply (@reward_ignores_action Example.framework Example.env_ready
              (Some [1; 2])).
Defined.

End SensorFacts.

(** ** Collision masks *)

Module MaskFacts.
Import Python Numpy Mujoco Robosuite StickPush Spec.

Lemma setitem_Some {A : Type} (i : nat) (v : A) (arr arr' : list A) :
  setitem i v arr = Some arr' → (i < length arr)%nat ∧ arr' = <[i := v]> arr.
Proof. unfold setitem. case_decide; naive_solver. Qed.

Lemma with_masks_id (m : MjModel) :
  with_masks (geom_contype m) (geom_conaffinity m) m = m.
Proof. by destruct m. Qed.

(** One round of the loop over the contact geometries. *)
Lemma set_object_masks_Some (m m' : MjModel) (geom : string) :
  set_object_masks m geom = Some m' →
  ∃ i, geom_ids m !! geom = Some i
       ∧ (i < length (geom_contype m))%nat
       ∧ (i < length (geom_conaffinity m))%nat
       ∧ m' = with_masks (<[i := 4%Z]> (geom_contype m))
                (<[i := 4%Z]> (geom_conaffinity m)) m.
Proof.
  unfold set_object_masks, set_geom_contype, set_geom_conaffinity,
    geom_name2id.
  intros Hm.
  destruct (geom_ids m !! geom) as [i|] eqn:Hi; simpl in Hm; [|done].
  destruct (setitem i 4%Z (geom_contype m)) as [ct|] eqn:Hct;
    simpl in Hm; [|done].
  rewrite Hi in Hm. simpl in Hm.
  destruct (setitem i 4%Z (geom_conaffinity m)) as [ca|] eqn:Hca;
    simpl in Hm; [|done].
  apply setitem_Some in Hct as [Hlt ->].
  apply setitem_Some in Hca as [Hlt' ->].
  injection Hm as <-. by exists i.
Qed.

(** The whole loop: every listed geometry ends with both masks at [0b100],
    a mask that is [0b100] stays so, and the masks of geometries that are not
    listed are left alone. *)
Lemma object_masks_loop (geoms : list string) (m m' : MjModel) :
  for_each set_object_masks m geoms = Some m' →
  ∃ ct ca,
    m' = with_masks ct ca m
    ∧ length ct = length (geom_contype m)
    ∧ length ca = length (geom_conaffinity m)
    ∧ (∀ geom, geom ∈ geoms →
         ∃ i, geom_ids m !! geom = Some i
              ∧ ct !! i = Some 4%Z ∧ ca !! i = Some 4%Z)
    ∧ (∀ i, geom_contype m !! i = Some 4%Z → ct !! i = Some 4%Z)
    ∧ (∀ i, geom_conaffinity m !! i = Some 4%Z → ca !! i = Some 4%Z)
    ∧ (∀ i, (∀ geom, geom ∈ geoms → geom_ids m !! geom ≠ Some i) →
            ct !! i = geom_contype m !! i
            ∧ ca !! i = geom_conaffinity m !! i).
Proof.
  revert m. induction geoms as [|geom geoms IH]; intros m Hloop.
  - injection Hloop as <-.
    exists (geom_contype m), (geom_conaffinity m).
    rewrite with_masks_id. repeat split; try done.
    intros geom Hin. by apply elem_of_nil in Hin.
  - simpl in Hloop.
    destruct (set_object_masks m geom) as [m1|] eqn:Hm1;
      simpl in Hloop; [|done].
    apply set_object_masks_Some in Hm1 as (i & Hi & Hlt & Hlt' & ->).
    apply IH in Hloop as (ct & ca & -> & Hlen & Hlen' & Hin & Hct & Hca & Hout).
    simpl in *. rewrite length_insert in Hlen, Hlen'.
    exists ct, ca. split_and!; try done.
    + intros geom' [-> | Hin']%elem_of_cons.
      * exists i. split_and!; [done| |].
        -- apply Hct. by apply list_lookup_insert_eq.
        -- apply Hca. by apply list_lookup_insert_eq.
      * by apply Hin.
    + intros j Hj. apply Hct.
      destruct (decide (i = j)) as [->|Hne].
      * by apply list_lookup_insert_eq.
      * by rewrite list_lookup_insert_ne.
    + intros j Hj. apply Hca.
      destruct (decide (i = j)) as [->|Hne].
      * by apply list_lookup_insert_eq.
      * by rewrite list_lookup_insert_ne.
    + intros j Hj.
      assert (i ≠ j) as Hne.
      { intros ->. apply (Hj geom); [by left | done]. }
      destruct (Hout j) as [-> ->].
      { intros geom' Hin'. apply Hj. by right. }
      by rewrite !list_lookup_insert_ne.
Qed.

(** One round of the loop over the geometries of the gripper body. *)
Lemma set_gripper_mask_Some (gripper : nat) (m m' : MjModel) (k : nat) :
  set_gripper_mask gripper m k = Some m' →
  ∃ adr, body_geomadr m !! gripper = Some adr
         ∧ (k + adr < length (geom_contype m))%nat
         ∧ m' = with_masks (<[(k + adr)%nat := 7%Z]> (geom_contype m))
                  (geom_conaffinity m) m.
Proof.
  unfold set_gripper_mask, set_geom_contype. intros Hm.
  destruct (body_geomadr m !! gripper) as [adr|] eqn:Hadr;
    simpl in Hm; [|done].
  destruct (setitem (k + adr) 7%Z (geom_contype m)) as [ct|] eqn:Hct;
    simpl in Hm; [|done].
  apply setitem_Some in Hct as [Hlt ->].
  injection Hm as <-. by exists adr.
Qed.

(** The whole loop: the contype of every visited geometry ends at [0b111],
    a contype that is [0b111] stays so, other contypes and every conaffinity
    are left alone. *)
Lemma gripper_masks_loop (gripper : nat) (ks : list nat) (m m' : MjModel) :
  for_each (set_gripper_mask gripper) m ks = Some m' →
  ∃ ct,
    m' = with_masks ct (geom_conaffinity m) m
    ∧ length ct = length (geom_contype m)
    ∧ (∀ k adr, k ∈ ks → body_geomadr m !! gripper = Some adr →
                ct !! (k + adr)%nat = Some 7%Z)
    ∧ (∀ i, geom_contype m !! i = Some 7%Z → ct !! i = Some 7%Z)
    ∧ (∀ i, (∀ k adr, k ∈ ks → body_geomadr m !! gripper = Some adr →
                      i ≠ (k + adr)%nat) →
            ct !! i = geom_contype m !! i).
Proof.
  revert m. induction ks as [|k ks IH]; intros m Hloop.
  - injection Hloop as <-. exists (geom_contype m).
    rewrite with_masks_id. split_and!; try done.
    intros k adr Hin. by apply elem_of_nil in Hin.
  - simpl in Hloop.
    destruct (set_gripper_mask gripper m k) as [m1|] eqn:Hm1;
      simpl in Hloop; [|done].
    apply set_gripper_mask_Some in Hm1 as (adr & Hadr & Hlt & ->).
    apply IH in Hloop as (ct & -> & Hlen & Hin & Hct & Hout).
    simpl in *. rewrite length_insert in Hlen.
    exists ct. split_and!; try done.
    + intros k' adr' [-> | Hin']%elem_of_cons Hadr'.
      * assert (adr' = adr) as -> by congruence.
        apply Hct. by apply list_lookup_insert_eq.
      * by apply Hin.
    + intros j Hj. apply Hct.
      destruct (decide ((k + adr)%nat = j)) as [<-|Hne].
      * by apply list_lookup_insert_eq.
      * by rewrite list_lookup_insert_ne.
    + intros j Hj.
      rewrite Hout.
      * rewrite list_lookup_insert_ne; [done|].
        intros <-. apply (Hj k adr); [by left | done | done].
      * intros k' adr' Hin' Hadr'. apply Hj; [by right | done].
Qed.

(** The three loops of [_reset_internal] together. *)
Lemma set_collision_masks_Some `{Framework} (e : Env) (m m' : MjModel) :
  set_collision_masks e m = Some m' →
  ∃ c st r ct ca,
    cube e = Some c ∧ stick e = Some st ∧ refs e = Some r
    ∧ m' = with_masks ct ca m
    ∧ (∀ i, object_geom m c st i →
            ca !! i = Some 4%Z
            ∧ (i ≠ table_geom_id r → ¬ gripper_geom m r i →
               ct !! i = Some 4%Z))
    ∧ (∀ geom, geom ∈ contact_geoms c ++ contact_geoms st →
               is_Some (geom_name2id m geom))
    ∧ (∀ i, gripper_geom m r i → ct !! i = Some 7%Z)
    ∧ ct !! table_geom_id r = Some 7%Z
    ∧ (∀ i, ¬ object_geom m c st i → ca !! i = geom_conaffinity m !! i).
Proof.
  unfold set_collision_masks. intros Hm.
  destruct (cube e) as [c|]; simpl in Hm; [|done].
  destruct (stick e) as [st|]; simpl in Hm; [|done].
  destruct (for_each set_object_masks m _) as [m1|] eqn:Hobj;
    simpl in Hm; [|done].
  destruct (refs e) as [r|]; simpl in Hm; [|done].
  destruct (body_geomnum m1 !! gripper_body_id r) as [num|] eqn:Hnum;
    simpl in Hm; [|done].
  destruct (for_each _ m1 (seq 0 num)) as [m2|] eqn:Hgrip;
    simpl in Hm; [|done].
  apply object_masks_loop in Hobj
    as (ct1 & ca1 & -> & Hlen1 & _ & Hin1 & _ & _ & Hout1).
  apply gripper_masks_loop in Hgrip as (ct2 & -> & Hlen2 & Hin2 & _ & Hout2).
  unfold set_geom_contype in Hm. simpl in *.
  destruct (setitem (table_geom_id r) 7%Z ct2) as [ct3|] eqn:Htable;
    simpl in Hm; [|done].
  apply setitem_Some in Htable as [Hlt ->]. injection Hm as <-.
  exists c, st, r, (<[table_geom_id r := 7%Z]> ct2), ca1.
  split_and!; try done.
  - intros i (geom & Hgeom & Hi). unfold geom_name2id in Hi.
    destruct (Hin1 geom Hgeom) as (i' & Hi' & Hct & Hca).
    assert (i' = i) as -> by congruence.
    split; [done|]. intros Hne Hnot.
    rewrite list_lookup_insert_ne by done. rewrite Hout2; [done|].
    intros k adr Hk%elem_of_seq Hadr ->. apply Hnot.
    exists num, adr, k. split_and!; [done | done | lia | done].
  - intros geom Hgeom. destruct (Hin1 geom Hgeom) as (i & Hi & _).
    by exists i.
  - intros i (num' & adr & k & Hnum' & Hadr & Hk & ->).
    assert (num' = num) as -> by congruence.
    assert (ct2 !! (k + adr)%nat = Some 7%Z) as Hct.
    { apply Hin2; [|done]. apply elem_of_seq. lia. }
    destruct (decide (table_geom_id r = (k + adr)%nat)) as [<-|Hne].
    + by apply list_lookup_insert_eq.
    + by rewrite list_lookup_insert_ne.
  - by apply list_lookup_insert_eq.
  - intros i Hnot. apply Hout1. intros geom Hgeom Hi. apply Hnot.
    by exists geom.
Qed.

End MaskFacts.

(** ** Reset *)

Module ResetFacts.
Import Python Numpy NumpyFacts Mujoco Robosuite StickPush Spec MaskFacts.

Lemma set_joint_qpos_Some (nm : string) (value : array) (d d' : MjData) :
  set_joint_qpos nm value d = Some d' →
  d' = mkData (<[nm := value]> (qpos d)) (body_xpos d) (body_xquat d).
Proof.
  unfold set_joint_qpos. intros Hd.
  destruct (qpos d !! nm) as [old|]; simpl in Hd; [|done].
  case_decide; naive_solver.
Qed.

Lemma setrow_Some (w i : nat) (v : array) (arr arr' : list array) :
  setrow w i v arr = Some arr' →
  ∃ row, broadcast_row w v = Some row ∧ arr' = <[i := row]> arr.
Proof.
  unfold setrow. intros Ha.
  destruct (broadcast_row w v) as [row|]; simpl in Ha; [|done].
  apply setitem_Some in Ha as [_ ->]. by exists row.
Qed.

Lemma set_body_pos_Some (i : nat) (v : array) (m m' : MjModel) :
  set_body_pos i v m = Some m' →
  ∃ row, broadcast_row 3 v = Some row
         ∧ m' = with_poses (<[i := row]> (body_pos m)) (body_quat m) m.
Proof.
  unfold set_body_pos. intros Hm.
  destruct (setrow 3 i v (body_pos m)) as [a|] eqn:Ha; simpl in Hm; [|done].
  apply setrow_Some in Ha as (row & Hrow & ->).
  injection Hm as <-. by exists row.
Qed.

Lemma set_body_quat_Some (i : nat) (v : array) (m m' : MjModel) :
  set_body_quat i v m = Some m' →
  ∃ row, broadcast_row 4 v = Some row
         ∧ m' = with_poses (body_pos m) (<[i := row]> (body_quat m)) m.
Proof.
  unfold set_body_quat. intros Hm.
  destruct (setrow 4 i v (body_quat m)) as [a|] eqn:Ha; simpl in Hm; [|done].
  apply setrow_Some in Ha as (row & Hrow & ->).
  injection Hm as <-. by exists row.
Qed.

Section Reset.
Context `{Framework}.

(** The successful runs of the sampling branch, read off its code. *)
Lemma place_objects_trace (e : Env) (s : MjSim) (g : Rng)
    (s' : MjSim) (g' : Rng) :
  place_objects e s g = Some (s', g') →
  ∃ t, places_objects e s g t s' g'.
Proof.
  unfold place_objects. intros Hp.
  destruct (sampler_at (cube_initializer e) e) as [cs|] eqn:Hcs;
    simpl in Hp; [|done].
  destruct (sample cs None g) as [[cpl g1]|] eqn:Hcpl; simpl in Hp; [|done].
  destruct (cpl !! "cube") as [[[cpos cquat] cobj]|] eqn:Hcube;
    simpl in Hp; [|done].
  destruct (cube e) as [c|] eqn:Hc; simpl in Hp; [|done].
  destruct (joints c !! 0%nat) as [cj|] eqn:Hcj; simpl in Hp; [|done].
  destruct (set_joint_qpos cj _ (data s)) as [d1|] eqn:Hd1;
    simpl in Hp; [|done].
  destruct (sampler_at (stick_initializer e) e) as [ss|] eqn:Hss;
    simpl in Hp; [|done].
  destruct (sample ss (Some cpl) g1) as [[spl g2]|] eqn:Hspl;
    simpl in Hp; [|done].
  destruct (spl !! "stick") as [[[spos squat] sobj]|] eqn:Hstick;
    simpl in Hp; [|done].
  destruct (stick e) as [st|] eqn:Hst; simpl in Hp; [|done].
  destruct (joints st !! 0%nat) as [sj|] eqn:Hsj; simpl in Hp; [|done].
  destruct (set_joint_qpos sj _ d1) as [d2|] eqn:Hd2; simpl in Hp; [|done].
  destruct (sampler_at (goal_initializer e) e) as [gs|] eqn:Hgs;
    simpl in Hp; [|done].
  destruct (sample gs None g2) as [[gpl g3]|] eqn:Hgpl; simpl in Hp; [|done].
  destruct (gpl !! "goal") as [[[gpos gquat] gobj]|] eqn:Hgoal;
    simpl in Hp; [|done].
  destruct (refs e) as [r|] eqn:Hr; simpl in Hp; [|done].
  destruct (set_body_pos (goal_body_id r) gpos (model s)) as [m1|] eqn:Hm1;
    simpl in Hp; [|done].
  destruct (set_body_quat (goal_body_id r) gquat m1) as [m2|] eqn:Hm2;
    simpl in Hp; [|done].
  injection Hp as <- <-.
  apply set_joint_qpos_Some in Hd1 as ->.
  apply set_joint_qpos_Some in Hd2 as ->.
  apply set_body_pos_Some in Hm1 as (prow & Hprow & ->).
  apply set_body_quat_Some in Hm2 as (qrow & Hqrow & ->).
  exists (mkPlacing cs cpl (cpos, cquat, cobj) cj g1
            ss spl (spos, squat, sobj) sj g2
            gs gpl (gpos, gquat, gobj) (goal_body_id r)).
  unfold places_objects, position, orientation, concatenate. simpl.
  split_and!; try done.
  - by exists c.
  - by exists st.
  - by exists r.
  - by exists prow.
  - by exists qrow.
Qed.

(** The successful runs of [_reset_internal]: the reset of the base class,
    then the masks, then, unless the reset is deterministic, the sampling
    branch. *)
Lemma reset_internal_Some (e e' : Env) :
  _reset_internal e = Some e' →
  ∃ b s0 g0 m,
    super_reset_internal (base e) (sim e) (rng e) = Some (b, s0, g0)
    ∧ set_collision_masks e (model s0) = Some m
    ∧ ((deterministic_reset b = true
        ∧ e' = set_world b (mkSim m (data s0)) g0 e)
       ∨ (deterministic_reset b = false
          ∧ ∃ s' g', place_objects e (mkSim m (data s0)) g0 = Some (s', g')
                     ∧ e' = set_world b s' g' e)).
Proof.
  unfold _reset_internal. intros Hr.
  destruct (super_reset_internal _ _ _) as [[[b s0] g0]|] eqn:Hsuper;
    simpl in Hr; [|done].
  change (set_collision_masks (set_world b s0 g0 e) (model s0))
    with (set_collision_masks e (model s0)) in Hr.
  destruct (set_collision_masks e (model s0)) as [m|] eqn:Hm;
    simpl in Hr; [|done].
  exists b, s0, g0, m. split_and!; try done.
  destruct (deterministic_reset b) eqn:Hdet.
  - left. by injection Hr as <-.
  - right. split; [done|].
    change (place_objects (set_world b s0 g0 e))
      with (place_objects e) in Hr.
    destruct (place_objects e _ g0) as [[s' g']|] eqn:Hp;
      simpl in Hr; [|done].
    injection Hr as <-. by exists s', g'.
Qed.

(** C5. During a stochastic reset, [_reset_internal] writes the sampled cube
    pose into the cube's free-joint state, then samples the stick pose with
    the cube's placement as fixtures and writes it into the stick's
    free-joint state, and finally samples the goal pose without fixtures and
    writes it into the [body_pos] and [body_quat] rows of the goal body, not
    into any joint state. *)
Theorem reset_internal_places_objects (e e' : Env) :
  _reset_internal e = Some e' →
  deterministic_reset (base e') = false →
  ∃ b s0 g0 m t,
    super_reset_internal (base e) (sim e) (rng e) = Some (b, s0, g0)
    ∧ set_collision_masks e (model s0) = Some m
    ∧ places_objects e (mkSim m (data s0)) g0 t (sim e') (rng e').
Proof.
  intros Hr Hdet.
  apply reset_internal_Some in Hr
    as (b & s0 & g0 & m & Hsuper & Hm & [[Hb ->] | [Hb (s' & g' & Hp & ->)]]).
  - simpl in Hdet. congruence.
  - apply place_objects_trace in Hp as [t Ht].
    by exists b, s0, g0, m, t.
Qed.

(** C6, as the code has it. On every reset, [_reset_internal] sets both the
    contype and the conaffinity of every contact geometry of the cube and of
    the stick to [0b100], and the contype, but not the conaffinity, of every
    geometry of the gripper body and of the table's collision geometry to
    [0b111]. The object layer [0b100] differs from [0b111], and by MuJoCo's
    contact filter every contact geometry of cube and stick can collide with
    every gripper geometry and with the table. *)
Theorem reset_internal_collision_masks (e e' : Env) :
  _reset_internal e = Some e' →
  ∃ b s0 g0 c st r,
    super_reset_internal (base e) (sim e) (rng e) = Some (b, s0, g0)
    ∧ cube e = Some c ∧ stick e = Some st ∧ refs e = Some r
    ∧ let m' := model (sim e') in
      (* cube and stick: conaffinity and contype 0b100 *)
      (∀ i, object_geom m' c st i →
            geom_conaffinity m' !! i = Some 4%Z
            ∧ (i ≠ table_geom_id r → ¬ gripper_geom m' r i →
               geom_contype m' !! i = Some 4%Z))
      ∧ (∀ geom, geom ∈ contact_geoms c ++ contact_geoms st →
                 is_Some (geom_name2id m' geom))
      (* gripper and table: contype 0b111 *)
      ∧ (∀ i, gripper_geom m' r i → geom_contype m' !! i = Some 7%Z)
      ∧ geom_contype m' !! table_geom_id r = Some 7%Z
      (* every other conaffinity is the one the base class left *)
      ∧ (∀ i, ¬ object_geom m' c st i →
              geom_conaffinity m' !! i = geom_conaffinity (model s0) !! i)
      (* the layers differ, and the objects meet gripper and table *)
      ∧ (4 ≠ 7)%Z
      ∧ (∀ i j ti ai tj aj,
           object_geom m' c st i →
           gripper_geom m' r j ∨ j = table_geom_id r →
           geom_contype m' !! i = Some ti →
           geom_conaffinity m' !! i = Some ai →
           geom_contype m' !! j = Some tj →
           geom_conaffinity m' !! j = Some aj →
           can_collide tj aj ti ai = true).
Proof.
  intros Hr.
  apply reset_internal_Some in Hr
    as (b & s0 & g0 & m & Hsuper & Hm & Hcases).
  apply set_collision_masks_Some in Hm
    as (c & st & r & ct & ca & Hc & Hst & Hrefs & -> & Hobj & Hids & Hgrip
        & Htable & Hframe).
  exists b, s0, g0, c, st, r. split_and!; try done.
  assert (∃ pos quat,
            model (sim e')
            = with_poses pos quat (with_masks ct ca (model s0)))
    as (pos & quat & Hmodel).
  { destruct Hcases as [[_ ->] | [_ (s' & g' & Hp & ->)]].
    - exists (body_pos (model s0)), (body_quat (model s0)). reflexivity.
    - apply place_objects_trace in Hp as [t Ht].
      destruct Ht as (_ & _ & _ & _ & _ & _ & _ & _ & _ & _ & _ & _ & _ & _
                      & _ & Hfr & _).
      simpl in *. eauto. }
  simpl. rewrite Hmodel.
  assert (Hgeq : ∀ i, gripper_geom
                        (with_poses pos quat (with_masks ct ca (model s0))) r i
                      ↔ gripper_geom (model s0) r i) by done.
  assert (Hoeq : ∀ i, object_geom
                        (with_poses pos quat (with_masks ct ca (model s0)))
                        c st i
                      ↔ object_geom (model s0) c st i) by done.
  simpl. split_and!.
  - intros i Hi%Hoeq. destruct (Hobj i Hi) as [Hca Hct].
    split; [done|]. intros Hne Hnot. apply Hct; [done|].
    intros Hg. by apply Hnot, Hgeq.
  - done.
  - intros i Hi%Hgeq. by apply Hgrip.
  - done.
  - intros i Hnot. apply Hframe. intros Hi. by apply Hnot, Hoeq.
  - done.
  - intros i j ti ai tj aj Hi%Hoeq Hj Hti Hai Htj Haj.
    destruct (Hobj i Hi) as [Hca _].
    assert (ai = 4%Z) as -> by congruence.
    assert (tj = 7%Z) as ->.
    { destruct Hj as [Hj%Hgeq | ->].
      - apply Hgrip in Hj. congruence.
      - congruence. }
    reflexivity.
Qed.

End Reset.

(** *** The concrete scene *)

Lemma lowest_corner_eq (s : UniformRandomSampler)
    (xlo xhi ylo yhi ox oy oz : R) :
  x_range s = [xlo; xhi] → y_range s = [ylo; yhi] →
  reference_pos s = [ox; oy; oz] → xlo <= xhi → ylo <= yhi →
  Example.lowest_corner s = Some [xlo + ox; ylo + oy; oz + z_offset s].
Proof.
  intros Hx Hy Hr Hxle Hyle. unfold Example.lowest_corner.
  rewrite Hx, Hy, Hr.
  by rewrite (proj2 (leb_true _ _) Hxle), (proj2 (leb_true _ _) Hyle).
Qed.

Lemma sample_lowest_single (s : UniformRandomSampler) (obj : MujocoObject)
    (fixtures : option Placements) (g : nat) (pos : array) :
  mujoco_objects s = [obj] → Example.lowest_corner s = Some pos →
  Example.sample_lowest s fixtures g
  = Some (<[obj_name obj := (pos, [1; 0; 0; 0], obj)]> (default ∅ fixtures),
          S g).
Proof. unfold Example.sample_lowest. by intros -> ->. Qed.

Lemma example_load_model :
  @_load_model Example.framework Example.env_init = Some Example.env_loaded.
Proof. reflexivity. Qed.

Lemma example_setup_references :
  @_setup_references Example.framework Example.env_loaded
  = Some Example.env_ready.
Proof. reflexivity. Qed.

Lemma example_reset_internal :
  @_reset_internal Example.framework Example.env_ready
  = Some Example.env_reset.
Proof.
  pose proof (sample_lowest_single Example.cube_sampler Example.cube_obj
                None 0 _ eq_refl
                (lowest_corner_eq Example.cube_sampler (-0.05) 0 (-0.1) 0.1
                   0 0 0.8 eq_refl eq_refl eq_refl
                   ltac:(lra) ltac:(lra))) as Hcube.
  pose proof (sample_lowest_single Example.stick_sampler Example.stick_obj
                (Some {["cube" := ([-0.05 + 0; -0.1 + 0; 0.8 + 0.001],
                                   [1; 0; 0; 0], Example.cube_obj)]}) 1 _
                eq_refl
                (lowest_corner_eq Example.stick_sampler (-0.2) (-0.08)
                   (-0.1) 0.1 0 0 0.8 eq_refl eq_refl eq_refl
                   ltac:(lra) ltac:(lra))) as Hstick.
  pose proof (sample_lowest_single Example.goal_sampler Example.goal_obj
                None 2 _ eq_refl
                (lowest_corner_eq Example.goal_sampler 0.07 0.12 (-0.1) 0.1
                   0 0 0.8 eq_refl eq_refl eq_refl
                   ltac:(lra) ltac:(lra))) as Hgoal.
  unfold _reset_internal.
  change (super_reset_internal _ _ _)
    with (Some (false, Example.mj_sim, 0%nat)).
  cbn [mbind option_bind].
  change (set_collision_masks _ _)
    with (Some (with_masks [7; 4; 4; 7; 7]%Z [1; 4; 4; 1; 1]%Z
                  Example.mj_model)).
  cbn [mbind option_bind].
  change (@deterministic_reset Example.framework false) with false.
  cbv iota. unfold place_objects.
  change (sampler_at (cube_initializer _) _) with (Some Example.cube_sampler).
  cbn [mbind option_bind].
  change (@sample Example.framework Example.cube_sampler None 0%nat)
    with (Example.sample_lowest Example.cube_sampler None 0).
  rewrite Hcube. cbn [mbind option_bind default].
  change (_ !! "cube")
    with (Some ([-0.05 + 0; -0.1 + 0; 0.8 + 0.001], [1; 0; 0; 0],
                Example.cube_obj)).
  cbn [mbind option_bind].
  change (cube _) with (Some Example.cube_obj). cbn [mbind option_bind].
  change (joints Example.cube_obj !! 0%nat) with (Some "cube_joint0").
  cbn [mbind option_bind].
  change (set_joint_qpos "cube_joint0" _ _)
    with (Some (mkData
                  (<["cube_joint0" :=
                       [-0.05 + 0; -0.1 + 0; 0.8 + 0.001; 1; 0; 0; 0]]>
                     (qpos Example.mj_data))
                  (body_xpos Example.mj_data) (body_xquat Example.mj_data))).
  cbn [mbind option_bind].
  change (sampler_at (stick_initializer _) _)
    with (Some Example.stick_sampler).
  cbn [mbind option_bind].
  change (@sample Example.framework Example.stick_sampler ?f 1%nat)
    with (Example.sample_lowest Example.stick_sampler
            (Some {["cube" := ([-0.05 + 0; -0.1 + 0; 0.8 + 0.001],
                               [1; 0; 0; 0], Example.cube_obj)]}) 1).
  rewrite Hstick. cbn [mbind option_bind default].
  change (_ !! "stick")
    with (Some ([-0.2 + 0; -0.1 + 0; 0.8 + 0.001], [1; 0; 0; 0],
                Example.stick_obj)).
  cbn [mbind option_bind].
  change (stick _) with (Some Example.stick_obj). cbn [mbind option_bind].
  change (joints Example.stick_obj !! 0%nat) with (Some "stick_joint0").
  cbn [mbind option_bind].
  change (set_joint_qpos "stick_joint0" _ _)
    with (Some Example.mj_data_reset).
  cbn [mbind option_bind].
  change (sampler_at (goal_initializer _) _) with (Some Example.goal_sampler).
  cbn [mbind option_bind].
  change (@sample Example.framework Example.goal_sampler None 2%nat)
    with (Example.sample_lowest Example.goal_sampler None 2).
  rewrite Hgoal. cbn [mbind option_bind default].
  reflexivity.
Qed.

Lemma reset_internal_places_objects_witness :
  ∃ b s0 g0 m t,
    @super_reset_internal Example.framework (base Example.env_ready)
      (sim Example.env_ready) (rng Example.env_ready) = Some (b, s0, g0)
    ∧ set_collision_masks Example.env_ready (model s0) = Some m
    ∧ places_objects Example.env_ready (mkSim m (data s0)) g0 t
        (sim Example.env_reset) (rng Example.env_reset).
Proof.
  exact (@reset_internal_places_objects Example.framework Example.env_ready
           Example.env_reset example_reset_internal eq_refl).
Defined.

Lemma reset_internal_collision_masks_witness :
  ∃ b s0 g0 c st r,
    @super_reset_internal Example.framework (base Example.env_ready)
      (sim Example.env_ready) (rng Example.env_ready) = Some (b, s0, g0)
    ∧ cube Example.env_ready = Some c ∧ stick Example.env_ready = Some st
    ∧ refs Example.env_ready = Some r
    ∧ geom_contype (model (sim Example.env_reset)) !! table_geom_id r
      = Some 7%Z.
Proof.
  destruct (@reset_internal_collision_masks Example.framework
              Example.env_ready Example.env_reset example_reset_internal)
    as (b & s0 & g0 & c & st & r & Hsuper & Hc & Hst & Hr & Hmasks).
  exists b, s0, g0, c, st, r. split_and!; try done. apply Hmasks.
Defined.

(** C6, as the claim states it, fails: after a reset of the concrete scene
    the table geometry (0) and the gripper geometries (3 and 4) have contype
    [0b111] but still the conaffinity 1 they started with, which enables
    neither all layers nor the layer [0b100] of cube and stick. *)
Lemma reset_internal_conaffinity_counterexample :
  @_reset_internal Example.framework Example.env_ready
  = Some Example.env_reset
  ∧ table_geom_id Example.references = 0%nat
  ∧ gripper_geom (model (sim Example.env_reset)) Example.references 3
  ∧ gripper_geom (model (sim Example.env_reset)) Example.references 4
  ∧ geom_contype (model (sim Example.env_reset)) = [7; 4; 4; 7; 7]%Z
  ∧ geom_conaffinity (model (sim Example.env_reset)) = [1; 4; 4; 1; 1]%Z
  ∧ Z.land 1 7 ≠ 7%Z
  ∧ Z.land 1 4 = 0%Z.
Proof.
  split_and!; try done.
  - apply example_reset_internal.
  - exists 2%nat, 3%nat, 0%nat. split_and!; try done. lia.
  - exists 2%nat, 3%nat, 1%nat. split_and!; try done. lia.
Qed.

End ResetFacts.

(** ** Placement samplers *)

Module SamplerFacts.
Import Python Numpy NumpyFacts Mujoco Robosuite StickPush Spec ResetFacts.

Section Samplers.
Context `{Framework}.

(** The branch for an existing sampler: same object, same configuration,
    the object list replaced by the one new object. *)
Lemma create_initializer_reuse (l : nat) (nm : string) (obj : MujocoObject)
    (area : list array) (e : Env) (h : gmap nat UniformRandomSampler)
    (n : nat) (s : UniformRandomSampler) :
  h !! l = Some s →
  create_initializer (Some l) nm obj area e h n
  = Some (Some l, <[l := with_objects [obj] s]> h, n).
Proof.
  intros Hl. unfold create_initializer, call_sampler.
  rewrite Hl. simpl. rewrite lookup_insert_eq. simpl.
  by rewrite insert_insert_eq.
Qed.

(** The branch for a missing sampler, on one of the three sampling areas. *)
Lemma create_initializer_new (nm : string) (obj : MujocoObject)
    (xr yr : array) (e : Env) (h : gmap nat UniformRandomSampler) (n : nat) :
  create_initializer None nm obj [xr; yr] e h n
  = Some (Some n,
          <[n := mkSampler nm [obj] xr yr (RotationValue 0) true true
                   (table_offset e) 0.001]> h,
          S n).
Proof. reflexivity. Qed.

(** [_load_model] on an instance whose three samplers exist. *)
Lemma load_model_reuse (e : Env) (lc lg ls : nat)
    (sc sg ss : UniformRandomSampler) (w : R) :
  cube_initializer e = Some lc →
  goal_initializer e = Some lg →
  stick_initializer e = Some ls →
  lc ≠ lg → lc ≠ ls → lg ≠ ls →
  samplers e !! lc = Some sc →
  samplers e !! lg = Some sg →
  samplers e !! ls = Some ss →
  table_full_size e !! 0%nat = Some w →
  let n := next_id e in
  let objs := [new_cube n; new_goal (S n); new_stick (S (S n))] in
  _load_model e
  = Some (set_base
            (build_task (table_full_size e) (table_friction e)
               (table_offset e) objs)
            (set_initializers (Some lc) (Some lg) (Some ls)
               (<[ls := with_objects [new_stick (S (S n))] ss]>
                  (<[lg := with_objects [new_goal (S n)] sg]>
                     (<[lc := with_objects [new_cube n] sc]> (samplers e))))
               (S (S (S n)))
               (set_objects (new_cube n) (new_goal (S n)) (new_stick (S (S n)))
                  (S (S (S n)))
                  (set_base (place_robot_at_table w)
                     (set_base super_load_model e))))).
Proof.
  intros Hci Hgi Hsi Hcg Hcs Hgs Hsc Hsg Hss Hw.
  unfold _load_model. simpl. rewrite Hw. simpl.
  rewrite Hci, Hgi, Hsi.
  rewrite (create_initializer_reuse _ _ _ _ _ _ _ sc) by done.
  cbn [mbind option_bind].
  rewrite (create_initializer_reuse _ _ _ _ _ _ _ sg)
    by (by rewrite lookup_insert_ne).
  cbn [mbind option_bind].
  rewrite (create_initializer_reuse _ _ _ _ _ _ _ ss)
    by (by rewrite !lookup_insert_ne).
  reflexivity.
Qed.

(** C9. When [_load_model] runs on an instance whose three initializers are
    not [None] (three sampler objects, as the first construction leaves
    them), it returns, and each sampler is reset and given the newly created
    object instead of being replaced: the attributes refer to the same
    sampler objects, no sampler is constructed, the configuration of each
    (name, x_range, y_range, rotation, validity-check flags, reference_pos,
    z_offset) is unchanged, and its object list holds exactly the new
    object. *)
Theorem load_model_reuses_samplers (e : Env) (lc lg ls : nat)
    (sc sg ss : UniformRandomSampler) (w : R) :
  cube_initializer e = Some lc →
  goal_initializer e = Some lg →
  stick_initializer e = Some ls →
  lc ≠ lg → lc ≠ ls → lg ≠ ls →
  samplers e !! lc = Some sc →
  samplers e !! lg = Some sg →
  samplers e !! ls = Some ss →
  table_full_size e !! 0%nat = Some w →
  ∃ e' sc' sg' ss',
    _load_model e = Some e'
    (* the objects are created anew *)
    ∧ cube e' = Some (new_cube (next_id e))
    ∧ goal e' = Some (new_goal (S (next_id e)))
    ∧ stick e' = Some (new_stick (S (S (next_id e))))
    (* the attributes keep referring to the same sampler objects *)
    ∧ cube_initializer e' = Some lc
    ∧ goal_initializer e' = Some lg
    ∧ stick_initializer e' = Some ls
    ∧ dom (samplers e') = dom (samplers e)
    (* whose configuration is unchanged and which hold the new objects *)
    ∧ samplers e' !! lc = Some sc' ∧ config sc' = config sc
    ∧ mujoco_objects sc' = [new_cube (next_id e)]
    ∧ samplers e' !! lg = Some sg' ∧ config sg' = config sg
    ∧ mujoco_objects sg' = [new_goal (S (next_id e))]
    ∧ samplers e' !! ls = Some ss' ∧ config ss' = config ss
    ∧ mujoco_objects ss' = [new_stick (S (S (next_id e)))]
    (* and every other sampler is left alone *)
    ∧ (∀ l, l ≠ lc → l ≠ lg → l ≠ ls → samplers e' !! l = samplers e !! l).
Proof.
  intros Hci Hgi Hsi Hcg Hcs Hgs Hsc Hsg Hss Hw.
  eexists _, (with_objects _ sc), (with_objects _ sg), (with_objects _ ss).
  split; [by eapply load_model_reuse|].
  simpl. split_and!; try done.
  - rewrite !dom_insert_lookup_L; [done | by exists sc | |].
    + rewrite lookup_insert_ne by done. by exists sg.
    + rewrite !lookup_insert_ne by done. by exists ss.
  - rewrite !lookup_insert_ne by done. by rewrite lookup_insert_eq.
  - rewrite lookup_insert_ne by done. by rewrite lookup_insert_eq.
  - by rewrite lookup_insert_eq.
  - intros l Hl1 Hl2 Hl3. by rewrite !lookup_insert_ne.
Qed.

(** *** The invariant of the placement samplers *)

Lemma initializers_ok_fields (e e' : Env) :
  table_offset e' = table_offset e →
  cube_initializer e' = cube_initializer e →
  goal_initializer e' = goal_initializer e →
  stick_initializer e' = stick_initializer e →
  cube e' = cube e → goal e' = goal e → stick e' = stick e →
  samplers e' = samplers e →
  initializers_ok e → initializers_ok e'.
Proof.
  unfold initializers_ok, initializer_for.
  by intros -> -> -> -> -> -> -> ->.
Qed.

Lemma initializers_ok_init (full_size friction : array) (object_obs : bool)
    (s : MjSim) (g : Rng) (b : Base) :
  initializers_ok (init full_size friction object_obs s g b).
Proof. split; [done|]. by left. Qed.

(** Exhibits the sampler behind an attribute: the attribute, then the
    lookup in the sampler states after [skip] has passed the later
    insertions, then the object and the configuration. *)
Ltac initializer_at skip :=
  eexists _, _, _; split; [done|]; split;
  [ cbn [samplers set_base set_initializers]; skip;
    by rewrite lookup_insert_eq
  | by split_and! ].

Lemma initializers_ok_load_model (e e' : Env) :
  initializers_ok e → _load_model e = Some e' → initializers_ok e'.
Proof.
  intros [Hoff [(Hci & Hgi & Hsi) | Hready]] Hload.
  - (* first construction: three samplers are created *)
    unfold _load_model in Hload. simpl in Hload.
    destruct (table_full_size e !! 0%nat) as [w|]; simpl in Hload; [|done].
    rewrite Hci, Hgi, Hsi in Hload.
    unfold CUBE_SPAWN_AREA, GOAL_SPAWN_AREA, STICK_SPAWN_AREA in Hload.
    rewrite !create_initializer_new in Hload. simpl in Hload.
    injection Hload as <-. split; [done|]. right. simpl.
    split_and!; try (intros [=]; lia).
    + initializer_at ltac:(rewrite !lookup_insert_ne by lia).
    + initializer_at ltac:(rewrite lookup_insert_ne by lia).
    + initializer_at idtac.
  - (* rebuild: the three samplers are kept *)
    destruct Hready as ((lc & sc & c & Hci & Hsc & _ & _ & _ & Hcc)
                        & (lg & sg & g & Hgi & Hsg & _ & _ & _ & Hgc)
                        & (ls & ss & st & Hsi & Hss & _ & _ & _ & Hstc)
                        & Hcg & Hcs & Hgs).
    rewrite Hci, Hgi in Hcg. rewrite Hci, Hsi in Hcs.
    rewrite Hgi, Hsi in Hgs.
    assert (∃ w, table_full_size e !! 0%nat = Some w) as [w Hw].
    { unfold _load_model in Hload. simpl in Hload.
      destruct (table_full_size e !! 0%nat) as [w|]; [by exists w | done]. }
    rewrite (load_model_reuse e lc lg ls sc sg ss w) in Hload
      by (done || congruence).
    injection Hload as <-. split; [done|]. right. simpl.
    split_and!; try congruence.
    + initializer_at ltac:(rewrite !lookup_insert_ne by congruence).
    + initializer_at ltac:(rewrite lookup_insert_ne by congruence).
    + initializer_at idtac.
Qed.

Lemma initializers_ok_setup_references (e e' : Env) :
  initializers_ok e → _setup_references e = Some e' → initializers_ok e'.
Proof.
  intros Hok Hrefs. unfold _setup_references in Hrefs.
  repeat (match type of Hrefs with
          | mbind _ ?x = Some _ =>
              destruct x; simpl in Hrefs; [|done]
          end).
  injection Hrefs as <-. by apply (initializers_ok_fields e).
Qed.

Lemma initializers_ok_reset_internal (e e' : Env) :
  initializers_ok e → _reset_internal e = Some e' → initializers_ok e'.
Proof.
  intros Hok Hreset.
  apply reset_internal_Some in Hreset
    as (b & s0 & g0 & m & _ & _ & [[_ ->] | [_ (s' & g' & _ & ->)]]);
    by apply (initializers_ok_fields e).
Qed.

(** Every state an instance goes through satisfies the invariant. *)
Lemma reachable_initializers_ok (e : Env) : reachable e → initializers_ok e.
Proof.
  induction 1 as [| e e' _ IH Hstep | e e' _ IH Hstep | e e' _ IH Hstep
                  | e b s g _ IH].
  - apply initializers_ok_init.
  - by apply (initializers_ok_load_model e).
  - by apply (initializers_ok_setup_references e).
  - by apply (initializers_ok_reset_internal e).
  - by apply (initializers_ok_fields e).
Qed.

(** A position in the declared ranges of a configured sampler lies in the
    rectangle of its area. *)
Lemma configured_in_rectangle (s : UniformRandomSampler) (nm : string)
    (xlo xhi ylo yhi : R) (origin pos : array) :
  configured s nm [[xlo; xhi]; [ylo; yhi]] origin →
  within_declared_ranges s pos →
  in_rectangle pos xlo xhi ylo yhi origin.
Proof.
  intros (_ & [= Hx Hy] & _ & _ & _ & Horigin & _)
         (x & y & z & ox & oy & oz & -> & Href
          & (xlo' & xhi' & Hx' & Hxin) & (ylo' & yhi' & Hy' & Hyin)).
  rewrite Hx in Hx'. rewrite Hy in Hy'.
  injection Hx' as <- <-. injection Hy' as <- <-.
  exists x, y, z, ox, oy, oz.
  split; [done|]. split; [congruence|]. by split.
Qed.

(** One draw of a reset: the sampler behind the attribute is the configured
    one, and under the contract the position it returns for its object lies
    in the rectangle of its area. *)
Lemma draw_in_rectangle (e : Env) (attr : option nat)
    (obj : option MujocoObject) (nm objname : string)
    (xlo xhi ylo yhi : R) (s : UniformRandomSampler)
    (fixtures : option Placements) (g g' : Rng) (placement : Placements)
    (pose : array * array * MujocoObject) :
  sampler_contract →
  initializer_for e attr obj nm objname [[xlo; xhi]; [ylo; yhi]] →
  sampler_at attr e = Some s →
  sample s fixtures g = Some (placement, g') →
  placement !! objname = Some pose →
  configured s nm [[xlo; xhi]; [ylo; yhi]] (table_offset e)
  ∧ in_rectangle (position pose) xlo xhi ylo yhi (table_offset e).
Proof.
  intros Hcontract (l & s' & o & -> & Hl & _ & Hobjs & Hname & Hconf)
         Hat Hsample Hpose.
  unfold sampler_at in Hat. simpl in Hat.
  assert (s' = s) as -> by congruence.
  split; [done|].
  destruct (Hcontract s fixtures g g' placement Hsample o)
    as (pose' & Hpose' & Hin).
  { rewrite Hobjs. by left. }
  rewrite Hname in Hpose'. assert (pose' = pose) as -> by congruence.
  by eapply configured_in_rectangle.
Qed.

(** C7. Under the sampler's contract, at every stochastic reset of an
    instance, however many episodes came before, the position drawn for
    each object lies within the declared rectangle of that object laid out
    from the table offset (cube x in [-0.05, 0], stick x in [-0.2, -0.08],
    goal x in [0.07, 0.12], y in [-0.1, 0.1] for all three), and the sampler
    it is drawn from is configured with rotation 0, both validity checks,
    the table offset as reference origin and a z-offset of 0.001. *)
Theorem sampled_positions_in_spawn_areas (e e' : Env) :
  sampler_contract →
  reachable e →
  _reset_internal e = Some e' →
  deterministic_reset (base e') = false →
  ∃ b s0 g0 m t,
    super_reset_internal (base e) (sim e) (rng e) = Some (b, s0, g0)
    ∧ places_objects e (mkSim m (data s0)) g0 t (sim e') (rng e')
    ∧ table_offset e = [0; 0; 0.8]
    ∧ configured (cube_sampler t) "CubeSampler" CUBE_SPAWN_AREA
        (table_offset e)
    ∧ configured (stick_sampler t) "StickSampler" STICK_SPAWN_AREA
        (table_offset e)
    ∧ configured (goal_sampler t) "GoalSampler" GOAL_SPAWN_AREA
        (table_offset e)
    ∧ in_rectangle (position (cube_pose t)) (-0.05) 0 (-0.1) 0.1
        (table_offset e)
    ∧ in_rectangle (position (stick_pose t)) (-0.2) (-0.08) (-0.1) 0.1
        (table_offset e)
    ∧ in_rectangle (position (goal_pose t)) 0.07 0.12 (-0.1) 0.1
        (table_offset e).
Proof.
  intros Hcontract Hreach Hreset Hdet.
  apply reachable_initializers_ok in Hreach as [Hoff Hcases].
  apply reset_internal_Some in Hreset
    as (b & s0 & g0 & m & Hsuper & _
        & [[Hb ->] | [Hb (s' & g' & Hp & ->)]]).
  { simpl in Hdet. congruence. }
  apply place_objects_trace in Hp as [t Ht].
  exists b, s0, g0, m, t.
  pose proof Ht as (Hcs & Hcdraw & Hcpose & _ & Hss & Hsdraw & Hspose & _
                    & Hgs & Hgdraw & Hgpose & _).
  destruct Hcases as [(Hnone & _ & _) | (Hc & Hg & Hs & _)].
  { rewrite Hnone in Hcs. done. }
  destruct (draw_in_rectangle _ _ _ _ _ _ _ _ _ _ _ _ _ _ _
              Hcontract Hc Hcs Hcdraw Hcpose) as [Hcconf Hcin].
  destruct (draw_in_rectangle _ _ _ _ _ _ _ _ _ _ _ _ _ _ _
              Hcontract Hs Hss Hsdraw Hspose) as [Hsconf Hsin].
  destruct (draw_in_rectangle _ _ _ _ _ _ _ _ _ _ _ _ _ _ _
              Hcontract Hg Hgs Hgdraw Hgpose) as [Hgconf Hgin].
  by split_and!.
Qed.

End Samplers.

(** *** The concrete scene *)

Lemma lowest_corner_within (s : UniformRandomSampler) (pos : array) :
  Example.lowest_corner s = Some pos → within_declared_ranges s pos.
Proof.
  unfold Example.lowest_corner.
  destruct (x_range s) as [|xlo [|xhi [|]]] eqn:Hx; try done.
  destruct (y_range s) as [|ylo [|yhi [|]]] eqn:Hy; try done.
  destruct (reference_pos s) as [|ox [|oy [|oz [|]]]] eqn:Hr; try done.
  destruct (leb xlo xhi) eqn:Hxle; [|done].
  destruct (leb ylo yhi) eqn:Hyle; [|done].
  intros [= <-]. apply leb_true in Hxle, Hyle.
  exists (xlo + ox), (ylo + oy), (oz + z_offset s), ox, oy, oz.
  split_and!; try done.
  - exists xlo, xhi. split; [done|]. lra.
  - exists ylo, yhi. split; [done|]. lra.
Qed.

(** Placing objects at one position leaves that position under every name
    it is already under, and puts it under the name of each object. *)
Lemma place_at_all (pos : array) (objs : list MujocoObject)
    (pl pl' : Placements) :
  for_each (Example.place_at pos) pl objs = Some pl' →
  (∀ k pose, pl !! k = Some pose → pose.1.1 = pos →
             ∃ pose', pl' !! k = Some pose' ∧ pose'.1.1 = pos)
  ∧ (∀ obj, obj ∈ objs →
            ∃ pose', pl' !! obj_name obj = Some pose' ∧ pose'.1.1 = pos).
Proof.
  revert pl. induction objs as [|obj objs IH]; intros pl Hloop.
  - injection Hloop as <-. split; [by eauto|].
    intros obj Hin. by apply elem_of_nil in Hin.
  - simpl in Hloop. apply IH in Hloop as [Hkeep Hnew]. split.
    + intros k pose Hk Hpos.
      destruct (decide (obj_name obj = k)) as [<-|Hne].
      * apply (Hkeep _ (pos, [1; 0; 0; 0], obj));
          [by rewrite lookup_insert_eq | done].
      * apply (Hkeep _ pose); [by rewrite lookup_insert_ne | done].
    + intros obj' [-> | Hin]%elem_of_cons; [|by apply Hnew].
      apply (Hkeep _ (pos, [1; 0; 0; 0], obj));
        [by rewrite lookup_insert_eq | done].
Qed.

Lemma example_sampler_contract : @sampler_contract Example.framework.
Proof.
  intros s fixtures g g' placement Hsample obj Hin.
  simpl in Hsample. unfold Example.sample_lowest in Hsample.
  destruct (Example.lowest_corner s) as [pos|] eqn:Hpos;
    simpl in Hsample; [|done].
  destruct (for_each _ _ _) as [pl|] eqn:Hloop; simpl in Hsample; [|done].
  injection Hsample as <- <-.
  apply place_at_all in Hloop as [_ Hnew].
  destruct (Hnew obj Hin) as (pose & Hpose & <-).
  exists pose. split; [done|]. by apply lowest_corner_within.
Qed.

Lemma example_reachable : @reachable Example.framework Example.env_ready.
Proof.
  eapply reachable_setup_references; [|exact example_setup_references].
  eapply reachable_load_model; [|exact example_load_model].
  apply reachable_init.
Qed.

Lemma sampled_positions_in_spawn_areas_witness :
  ∃ t,
    in_rectangle (position (@cube_pose Example.framework t))
      (-0.05) 0 (-0.1) 0.1 [0; 0; 0.8]
    ∧ in_rectangle (position (@stick_pose Example.framework t))
        (-0.2) (-0.08) (-0.1) 0.1 [0; 0; 0.8]
    ∧ in_rectangle (position (@goal_pose Example.framework t))
        0.07 0.12 (-0.1) 0.1 [0; 0; 0.8].
Proof.
  destruct (@sampled_positions_in_spawn_areas Example.framework
              Example.env_ready Example.env_reset example_sampler_contract
              example_reachable example_reset_internal eq_refl)
    as (b & s0 & g0 & m & t & _ & _ & _ & _ & _ & _ & Hc & Hs & Hg).
  by exists t.
Defined.

Lemma load_model_reuses_samplers_witness :
  ∃ e' sc' sg' ss',
    @_load_model Example.framework Example.env_loaded = Some e'
    ∧ cube_initializer e' = Some 3%nat
    ∧ samplers e' !! 3%nat = Some sc'
    ∧ config sc' = config Example.cube_sampler
    ∧ mujoco_objects sc' = [new_cube 6]
    ∧ samplers e' !! 4%nat = Some sg'
    ∧ config sg' = config Example.goal_sampler
    ∧ samplers e' !! 5%nat = Some ss'
    ∧ config ss' = config Example.stick_sampler.
Proof.
  destruct (@load_model_reuses_samplers Example.framework Example.env_loaded
              3 4 5 Example.cube_sampler Example.goal_sampler
              Example.stick_sampler 0.8)
    as (e' & sc' & sg' & ss' & Hload & _ & _ & _ & Hci & _ & _ & _
        & Hc & Hcc & Hco & Hg & Hgc & _ & Hs & Hsc & _); try done.
  by exists e', sc', sg', ss'.
Defined.

End SamplerFacts.

(** * Further properties *)

(** ** The visual gripper bounds *)

Module VisualFacts.
Import Numpy Robosuite StickPush Visual.

Ltac interval := split; unfold box_lo, box_hi; simpl; f_equal; lra.

(** X1. For a bounds array with rows (x0, x1), (y0, y1), (z0, z1) and a table
    offset (ox, oy, oz), [_vis_gripper_bounds] builds four boxes bounds0 to
    bounds3 that frame the (x, y) rectangle laid out from the offset: the
    outer face of each wall lies on one edge of the rectangle, each wall is
    0.014 thick and spans the whole extent of the other axis, and all walls
    rest on the table surface, 0.002 high. The z row is not used. *)
Theorem gripper_bound_walls_frame (x0 x1 y0 y1 z0 z1 ox oy oz : R) :
  ∃ xmin_wall ymin_wall xmax_wall ymax_wall,
    gripper_bound_walls [[x0; x1]; [y0; y1]; [z0; z1]] [ox; oy; oz]
    = Some [xmin_wall; ymin_wall; xmax_wall; ymax_wall]
    ∧ box_name <$> [xmin_wall; ymin_wall; xmax_wall; ymax_wall]
      = ["bounds0"; "bounds1"; "bounds2"; "bounds3"]
    ∧ occupies xmin_wall 0 (x0 + ox) (x0 + ox + 0.014)
    ∧ occupies xmin_wall 1 (y0 + oy) (y1 + oy)
    ∧ occupies xmax_wall 0 (x1 + ox - 0.014) (x1 + ox)
    ∧ occupies xmax_wall 1 (y0 + oy) (y1 + oy)
    ∧ occupies ymin_wall 0 (x0 + ox) (x1 + ox)
    ∧ occupies ymin_wall 1 (y0 + oy) (y0 + oy + 0.014)
    ∧ occupies ymax_wall 0 (x0 + ox) (x1 + ox)
    ∧ occupies ymax_wall 1 (y1 + oy - 0.014) (y1 + oy)
    ∧ Forall (λ wall, occupies wall 2 oz (oz + 0.002)
                      ∧ box_rgba wall = [0; 0; 0; 0.2])
        [xmin_wall; ymin_wall; xmax_wall; ymax_wall].
Proof.
  eexists _, _, _, _. split; [reflexivity|]. split; [reflexivity|].
  split_and!; try interval.
  repeat (apply Forall_cons_2; [split; [interval | reflexivity]|]).
  apply Forall_nil_2.
Qed.

End VisualFacts.

(** ** Success and reward, continued *)

Module SuccessMore.
Import Numpy NumpyFacts Success.

Lemma zip_with_minus_swap (a b : array) :
  zip_with Rminus b a = map Ropp (zip_with Rminus a b).
Proof.
  revert b. induction a as [|x a IH]; intros [|y b]; simpl; try done.
  f_equal; [ring | apply IH].
Qed.

(** Swapping the operands of a difference negates it, errors included. *)
Lemma sub_swap (a b : array) : sub b a = map Ropp <$> sub a b.
Proof.
  unfold sub. destruct (decide (length a = length b)) as [Heq|Hne].
  - rewrite decide_True by done. simpl. f_equal. apply zip_with_minus_swap.
  - rewrite decide_False by done.
    destruct a as [|x [|x' a]], b as [|y [|y' b]]; simpl in *; try done.
    all: rewrite map_map; do 2 f_equal; [ring|]; f_equal; [ring|].
    all: apply map_ext; intros; ring.
Qed.

Lemma dot_opp (d : array) : dot (map Ropp d) (map Ropp d) = dot d d.
Proof.
  unfold dot. f_equal.
  induction d as [|x d IH]; simpl; [done|]. f_equal; [ring | apply IH].
Qed.

Lemma norm_opp (d : array) : norm (map Ropp d) = norm d.
Proof. unfold norm. by rewrite dot_opp. Qed.

(** X2. [check_success] is symmetric in its two arguments, for arrays of any
    length: exchanging goal and cube changes neither the result nor whether
    the call raises. *)
Theorem check_success_symmetric (goal_pos cube_pos : array) :
  check_success cube_pos goal_pos = check_success goal_pos cube_pos.
Proof.
  unfold check_success. rewrite (sub_swap (slice_to 2 goal_pos)).
  destruct (sub (slice_to 2 goal_pos) (slice_to 2 cube_pos)) as [d|];
    simpl; [|done].
  by rewrite norm_opp.
Qed.

(** X3. [check_success] raises exactly when one point has no coordinate at
    all and the other has two or more; in particular it returns a boolean for
    any two points that have at least one coordinate each. *)
Theorem check_success_raises_iff (goal_pos cube_pos : array) :
  check_success goal_pos cube_pos = None
  ↔ (goal_pos = [] ∧ (2 ≤ length cube_pos)%nat)
    ∨ (cube_pos = [] ∧ (2 ≤ length goal_pos)%nat).
Proof.
  unfold check_success.
  destruct goal_pos as [|g1 [|g2 g]], cube_pos as [|c1 [|c2 c]];
    simpl; split; try done; try (intros [[? ?] | [? ?]]; simpl in *; done || lia).
  - intros _. left. split; [done | lia].
  - intros _. right. split; [done | lia].
Qed.

(** X4. Only the first two coordinates of each point count, in any
    dimension: changing, adding or removing any coordinate after the second,
    of either point, leaves the result unchanged, in exact arithmetic and in
    binary64 alike. *)
Theorem check_success_planar_only (gx gy cx cy : R)
    (g_rest c_rest g_rest' c_rest' : array) :
  check_success (gx :: gy :: g_rest) (cx :: cy :: c_rest)
  = check_success (gx :: gy :: g_rest') (cx :: cy :: c_rest')
  ∧ ∀ (fgx fgy fcx fcy : PrimFloat.float)
      (fg_rest fc_rest fg_rest' fc_rest' : Binary64.array),
      Binary64.check_success (fgx :: fgy :: fg_rest) (fcx :: fcy :: fc_rest)
      = Binary64.check_success (fgx :: fgy :: fg_rest')
          (fcx :: fcy :: fc_rest').
Proof. split; reflexivity. Qed.

End SuccessMore.

(** ** Sensors and reward, continued *)

Module SensorMore.
Import Python Numpy NumpyFacts Mujoco Robosuite StickPush Spec SpecMore.
Import SuccessFacts SensorFacts.

(** The shapes numpy refuses to subtract. *)
Lemma sub_None (a b : array) :
  sub a b = None
  ↔ length a ≠ length b ∧ length a ≠ 1%nat ∧ length b ≠ 1%nat.
Proof.
  unfold sub. destruct (decide (length a = length b)) as [Heq|Hne].
  - split; [done | tauto].
  - destruct a as [|x [|x' a]], b as [|y [|y' b]]; simpl in *;
      split; try done; try tauto.
Qed.

Lemma relative_sensor_raises (sensor : gmap string array → option array)
    (k1 k2 : string) :
  relative_sensor sensor k1 k2 → raises_on_shapes_only sensor k1 k2.
Proof.
  intros Hrel cache. destruct (Hrel cache) as [Habsent Hpresent].
  destruct (cache !! k1) as [a|] eqn:Ha.
  - destruct (cache !! k2) as [b|] eqn:Hb.
    + rewrite (Hpresent a b eq_refl eq_refl), sub_None. split.
      * intros Hshape. by exists a, b.
      * by intros (a' & b' & [= <-] & [= <-] & Hshape).
    + rewrite Habsent by (by right). split; [done|].
      by intros (a' & b' & _ & [=] & _).
  - rewrite Habsent by (by left). split; [done|].
    by intros (a' & b' & [=] & _).
Qed.

(** X5. The zero fallback of the six relative sensors covers missing keys
    only: a sensor raises exactly when both of its keys are cached with
    shapes that numpy cannot subtract (different lengths, neither of them
    one); on every other cache it returns an array. *)
Theorem relative_sensors_raise_on_shapes_only (pf : string) :
  raises_on_shapes_only (gripper_to_cube_pos pf) (pf +:+ "eef_pos") "cube_pos"
  ∧ raises_on_shapes_only (gripper_to_goal_pos pf)
      (pf +:+ "eef_pos") "goal_pos"
  ∧ raises_on_shapes_only cube_to_goal_pos "cube_pos" "goal_pos"
  ∧ raises_on_shapes_only (gripper_to_stick_pos pf)
      (pf +:+ "eef_pos") "stick_pos"
  ∧ raises_on_shapes_only stick_to_cube_pos "stick_pos" "cube_pos"
  ∧ raises_on_shapes_only stick_to_goal_pos "stick_pos" "goal_pos".
Proof.
  split_and!; by apply relative_sensor_raises, relative_sensor_intro.
Qed.

Section Sensors.
Context `{Framework}.

(** X7. The observation cube_to_goal_pos decides the reward: when the cache
    holds, under "cube_pos" and "goal_pos", what the sensors of these names
    return for the current state (3D positions), the reward is 0 if the
    planar norm of cube_to_goal_pos is at most 0.05 and -1 otherwise. *)
Theorem cube_to_goal_pos_decides_reward (e : Env) (action : option array)
    (cache : gmap string array) (g1 g2 g3 c1 c2 c3 : R) :
  goal_pos e cache = Some [g1; g2; g3] →
  cube_pos e cache = Some [c1; c2; c3] →
  let cache' :=
    <["goal_pos" := [g1; g2; g3]]> (<["cube_pos" := [c1; c2; c3]]> cache) in
  ∃ d, cube_to_goal_pos cache' = Some d
       ∧ reward e action
         = Some (if leb (norm (slice_to 2 d)) GOAL_RADIUS
                 then 0%Z else (-1)%Z).
Proof.
  intros Hg Hc cache'. unfold goal_pos, cube_pos in Hg, Hc. unfold reward.
  destruct (refs e) as [r|]; simpl in *; [|done].
  rewrite Hg. simpl. rewrite Hc. simpl.
  exists [c1 - g1; c2 - g2; c3 - g3]. split.
  - pose proof (relative_sensor_intro cube_to_goal_pos _ _
                  (λ _, eq_refl) cache') as [_ Hpresent].
    rewrite (Hpresent [c1; c2; c3] [g1; g2; g3]); [apply sub_3| |].
    + unfold cache'. rewrite lookup_insert_ne by done.
      by rewrite lookup_insert_eq.
    + unfold cache'. by rewrite lookup_insert_eq.
  - unfold compute_reward. rewrite check_success_3d. simpl.
    rewrite norm_2.
    replace ((g1 - c1) * (g1 - c1) + (g2 - c2) * (g2 - c2))
      with ((c1 - g1) * (c1 - g1) + (c2 - g2) * (c2 - g2)) by ring.
    reflexivity.
Qed.

End Sensors.

Lemma cube_to_goal_pos_decides_reward_witness :
  ∃ d, cube_to_goal_pos
         (<["goal_pos" := [0.10; 0; 0.8]]>
            (<["cube_pos" := [0.05; 0; 0.83]]> ∅)) = Some d
       ∧ @reward Example.framework Example.env_ready None
         = Some (if leb (norm (slice_to 2 d)) GOAL_RADIUS
                 then 0%Z else (-1)%Z).
Proof.
  by apply (@cube_to_goal_pos_decides_reward Example.framework
              Example.env_ready None ∅ 0.10 0 0.8 0.05 0 0.83).
Defined.

End SensorMore.

(** ** Observables and references *)

Module SetupFacts.
Import Python Numpy NumpyFacts Mujoco Robosuite StickPush Spec.

(** Registering a list of named entries one after the other. *)
Lemma register_all_lookup {A V : Type} (f : string → A → V)
    (l : list (string * A)) (m : gmap string V) :
  NoDup l.*1 →
  (∀ k a, (k, a) ∈ l →
          foldl (λ m '(k, a), <[k := f k a]> m) m l !! k = Some (f k a))
  ∧ (∀ k, k ∉ l.*1 →
          foldl (λ m '(k, a), <[k := f k a]> m) m l !! k = m !! k).
Proof.
  revert m. induction l as [|[k0 a0] l IH]; intros m Hnodup.
  - split; [|done]. intros k a Hin. by apply elem_of_nil in Hin.
  - apply NoDup_cons in Hnodup as [Hfresh Hnodup]. simpl in *.
    destruct (IH (<[k0 := f k0 a0]> m) Hnodup) as [Hin Hout]. split.
    + intros k a [[= -> ->] | Hl]%elem_of_cons.
      * rewrite Hout by done. by rewrite lookup_insert_eq.
      * by apply Hin.
    + intros k [Hne Hk]%not_elem_of_cons.
      rewrite Hout by done. by rewrite lookup_insert_ne.
Qed.

Section Setup.
Context `{Framework}.

Lemma sensor_names_NoDup (pf : string) : NoDup (sensors pf).*1.
Proof.
  simpl. apply (bool_decide_unpack _). vm_compute. exact I.
Qed.

(** X8. With [use_object_obs] off, [_setup_observables] returns the
    observables of the base class as they are. With it on, it registers the
    ten sensors of the list, each under its own name as an observable of
    that name, with that sensor function and the control frequency as
    sampling rate; an observable of the base class with one of these names
    is replaced, every other one is kept. *)
Theorem setup_observables_registers (e : Env)
    (observables : gmap string Observable) :
  let pf := robot_naming_prefix (base e) in
  let registered := _setup_observables e observables in
  (use_object_obs e = false → registered = observables)
  ∧ (use_object_obs e = true →
     (sensors pf).*1
     = ["gripper_to_cube_pos"; "gripper_to_goal_pos"; "cube_to_goal_pos";
        "gripper_to_stick_pos"; "stick_to_cube_pos"; "stick_to_goal_pos";
        "cube_pos"; "goal_pos"; "stick_pos"; "stick_quat"]
     ∧ (∀ nm s, (nm, s) ∈ sensors pf →
                registered !! nm
                = Some (mkObservable nm s (control_freq (base e))))
     ∧ (∀ k, k ∉ (sensors pf).*1 → registered !! k = observables !! k)).
Proof.
  intros pf registered. unfold registered, _setup_observables.
  split; intros ->; [done|]. split; [done|].
  apply (register_all_lookup
           (λ nm s, mkObservable nm s (control_freq (base e)))).
  apply sensor_names_NoDup.
Qed.

(** The successful runs of [_setup_references], read off its code. *)
Lemma setup_references_Some (e e' : Env) :
  _setup_references e = Some e' →
  ∃ c g s r,
    cube e = Some c ∧ goal e = Some g ∧ stick e = Some s
    ∧ body_name2id (model (sim e)) (root_body c) = Some (cube_body_id r)
    ∧ body_name2id (model (sim e)) (root_body g) = Some (goal_body_id r)
    ∧ body_name2id (model (sim e)) (root_body s) = Some (stick_body_id r)
    ∧ body_name2id (model (sim e))
        (gripper_naming_prefix (super_setup_references (sim e) (base e))
         +:+ "pushing_gripper") = Some (gripper_body_id r)
    ∧ geom_name2id (model (sim e))
        (table_collision_name (super_setup_references (sim e) (base e)))
      = Some (table_geom_id r)
    ∧ e' = set_refs r (set_base (super_setup_references (sim e)) e).
Proof.
  unfold _setup_references. simpl. intros Hrefs.
  destruct (cube e) as [c|]; simpl in Hrefs; [|done].
  destruct (body_name2id _ (root_body c)) as [ci|] eqn:Hci;
    simpl in Hrefs; [|done].
  destruct (goal e) as [g|]; simpl in Hrefs; [|done].
  destruct (body_name2id _ (root_body g)) as [gi|] eqn:Hgi;
    simpl in Hrefs; [|done].
  destruct (stick e) as [s|]; simpl in Hrefs; [|done].
  destruct (body_name2id _ (root_body s)) as [si|] eqn:Hsi;
    simpl in Hrefs; [|done].
  destruct (body_name2id _ (_ +:+ "pushing_gripper")) as [gr|] eqn:Hgr;
    simpl in Hrefs; [|done].
  destruct (geom_name2id _ _) as [t|] eqn:Ht; simpl in Hrefs; [|done].
  injection Hrefs as <-. by exists c, g, s, (mkRefs ci gi si gr t).
Qed.


(** X10. After a successful [_setup_references], [reward] and the sensors
    goal_pos and cube_pos read the absolute positions of the bodies the
    model files under the root-body names of the goal object and of the cube
    object: the reward is [compute_reward] of the goal body's position and
    the cube body's position, in this order. *)
Theorem reward_reads_object_bodies (e e' : Env) (action : option array)
    (cache : gmap string array) (c g : MujocoObject) (i j : nat)
    (goal_xpos cube_xpos : array) :
  _setup_references e = Some e' →
  goal e = Some g → cube e = Some c →
  body_name2id (model (sim e)) (root_body g) = Some i →
  body_name2id (model (sim e)) (root_body c) = Some j →
  body_xpos (data (sim e)) !! i = Some goal_xpos →
  body_xpos (data (sim e)) !! j = Some cube_xpos →
  reward e' action = compute_reward goal_xpos cube_xpos (∅ : gmap string array)
  ∧ goal_pos e' cache = Some goal_xpos
  ∧ cube_pos e' cache = Some cube_xpos.
Proof.
  intros He' Hg Hc Hi Hj Hgx Hcx.
  apply setup_references_Some in He'
    as (c' & g' & s & r & Hc' & Hg' & _ & Hci & Hgi & _ & _ & _ & ->).
  assert (c' = c) as -> by congruence.
  assert (g' = g) as -> by congruence.
  assert (goal_body_id r = i) as Hgoal by congruence.
  assert (cube_body_id r = j) as Hcube by congruence.
  unfold reward, goal_pos, cube_pos. simpl.
  rewrite Hgoal, Hcube, Hgx. simpl. by rewrite Hcx.
Qed.

End Setup.

Lemma reward_reads_object_bodies_witness :
  @reward Example.framework Example.env_ready None
  = compute_reward [0.10; 0; 0.8] [0.05; 0; 0.83] (∅ : gmap string array)
  ∧ @goal_pos Example.framework Example.env_ready ∅ = Some [0.10; 0; 0.8]
  ∧ @cube_pos Example.framework Example.env_ready ∅ = Some [0.05; 0; 0.83].
Proof.
  by apply (@reward_reads_object_bodies Example.framework Example.env_loaded
              Example.env_ready None ∅ Example.cube_obj Example.goal_obj
              2 1).
Defined.

End SetupFacts.

(** ** The life of the placement samplers *)

Module LifecycleFacts.
Import Python Numpy NumpyFacts Mujoco Robosuite StickPush Spec SpecMore.
Import ResetFacts SamplerFacts SetupFacts.

Section Lifecycle.
Context `{Framework}.

(** X11. Whenever the first [_load_model] after [__init__] succeeds, it
    has created the three objects and constructed exactly three samplers,
    CubeSampler, GoalSampler and StickSampler, each holding its own object
    and configured with its own spawn area, rotation 0, both validity
    checks, the table offset (0, 0, 0.8) as reference and a z-offset of
    0.001. *)
Theorem first_load_model_constructs_samplers (full_size friction : array)
    (object_obs : bool) (s : MjSim) (g : Rng) (b : Base) (e' : Env) :
  _load_model (init full_size friction object_obs s g b) = Some e' →
  cube e' = Some (new_cube 0)
  ∧ goal e' = Some (new_goal 1)
  ∧ stick e' = Some (new_stick 2)
  ∧ ∃ lc lg ls,
      cube_initializer e' = Some lc
      ∧ goal_initializer e' = Some lg
      ∧ stick_initializer e' = Some ls
      ∧ NoDup [lc; lg; ls]
      ∧ dom (samplers e') = {[lc; lg; ls]}
      ∧ samplers e' !! lc
        = Some (mkSampler "CubeSampler" [new_cube 0] [-0.05; 0] [-0.1; 0.1]
                  (RotationValue 0) true true [0; 0; 0.8] 0.001)
      ∧ samplers e' !! lg
        = Some (mkSampler "GoalSampler" [new_goal 1] [0.07; 0.12]
                  [-0.1; 0.1] (RotationValue 0) true true [0; 0; 0.8] 0.001)
      ∧ samplers e' !! ls
        = Some (mkSampler "StickSampler" [new_stick 2] [-0.2; -0.08]
                  [-0.1; 0.1] (RotationValue 0) true true [0; 0; 0.8] 0.001).
Proof.
  unfold _load_model. simpl.
  destruct (full_size !! 0%nat) as [w|]; simpl; [|done].
  intros [= <-]. simpl. split_and!; try done.
  exists 3%nat, 4%nat, 5%nat. split_and!; try done.
  apply (bool_decide_unpack _). vm_compute. exact I.
Qed.

Lemma sampler_store_ok_fields (e e' : Env) :
  cube_initializer e' = cube_initializer e →
  goal_initializer e' = goal_initializer e →
  stick_initializer e' = stick_initializer e →
  samplers e' = samplers e →
  sampler_store_ok e → sampler_store_ok e'.
Proof. unfold sampler_store_ok. by intros -> -> -> ->. Qed.

Lemma sampler_store_ok_load_model (e e' : Env) :
  sampler_store_ok e → _load_model e = Some e' → sampler_store_ok e'.
Proof.
  intros [(Hci & Hgi & Hsi & Hempty)
         | (lc & lg & ls & Hci & Hgi & Hsi & Hcg & Hcs & Hgs & Hdom)] Hload.
  - unfold _load_model in Hload. simpl in Hload.
    destruct (table_full_size e !! 0%nat) as [w|]; simpl in Hload; [|done].
    rewrite Hci, Hgi, Hsi in Hload.
    unfold CUBE_SPAWN_AREA, GOAL_SPAWN_AREA, STICK_SPAWN_AREA in Hload.
    rewrite !create_initializer_new in Hload. simpl in Hload.
    injection Hload as <-. right. simpl.
    eexists _, _, _. split_and!; try done; try lia.
    rewrite Hempty, !dom_insert_L, dom_empty_L.
    apply set_eq. intros l.
    rewrite !elem_of_union, !elem_of_singleton, elem_of_empty. tauto.
  - assert (∃ sc, samplers e !! lc = Some sc) as [sc Hsc].
    { apply elem_of_dom. rewrite Hdom.
      rewrite !elem_of_union, !elem_of_singleton. tauto. }
    assert (∃ sg, samplers e !! lg = Some sg) as [sg Hsg].
    { apply elem_of_dom. rewrite Hdom.
      rewrite !elem_of_union, !elem_of_singleton. tauto. }
    assert (∃ ss, samplers e !! ls = Some ss) as [ss Hss].
    { apply elem_of_dom. rewrite Hdom.
      rewrite !elem_of_union, !elem_of_singleton. tauto. }
    assert (∃ w, table_full_size e !! 0%nat = Some w) as [w Hw].
    { unfold _load_model in Hload. simpl in Hload.
      destruct (table_full_size e !! 0%nat) as [w|]; [by exists w | done]. }
    rewrite (load_model_reuse e lc lg ls sc sg ss w) in Hload by done.
    injection Hload as <-. right. simpl.
    exists lc, lg, ls. split_and!; try done.
    rewrite !dom_insert_lookup_L; [done | by exists sc | |].
    + rewrite lookup_insert_ne by done. by exists sg.
    + rewrite !lookup_insert_ne by done. by exists ss.
Qed.

Lemma reachable_sampler_store_ok (e : Env) :
  reachable e → sampler_store_ok e.
Proof.
  induction 1 as [| e e' _ IH Hstep | e e' _ IH Hstep | e e' _ IH Hstep
                  | e b s g _ IH].
  - left. by split_and!.
  - by apply (sampler_store_ok_load_model e).
  - apply setup_references_Some in Hstep
      as (c & g & s & r & _ & _ & _ & _ & _ & _ & _ & _ & ->).
    by apply (sampler_store_ok_fields e).
  - apply reset_internal_Some in Hstep
      as (b & s0 & g0 & m & _ & _ & [[_ ->] | [_ (s' & g' & _ & ->)]]);
      by apply (sampler_store_ok_fields e).
  - by apply (sampler_store_ok_fields e).
Qed.

(** X12. Samplers never pile up and object lists never grow: in every
    state an instance goes through, either no sampler exists yet, or there
    are exactly three sampler objects, the ones the three attributes refer
    to, each holding exactly one object, the current object of its kind,
    under its declared configuration. *)
Theorem reachable_three_samplers (e : Env) :
  reachable e →
  (samplers e = ∅ ∧ cube_initializer e = None ∧ goal_initializer e = None
   ∧ stick_initializer e = None)
  ∨ (∃ lc lg ls,
       cube_initializer e = Some lc ∧ goal_initializer e = Some lg
       ∧ stick_initializer e = Some ls
       ∧ NoDup [lc; lg; ls]
       ∧ dom (samplers e) = {[lc; lg; ls]}
       ∧ initializer_for e (Some lc) (cube e)
           "CubeSampler" "cube" CUBE_SPAWN_AREA
       ∧ initializer_for e (Some lg) (goal e)
           "GoalSampler" "goal" GOAL_SPAWN_AREA
       ∧ initializer_for e (Some ls) (stick e)
           "StickSampler" "stick" STICK_SPAWN_AREA).
Proof.
  intros Hreach.
  destruct (reachable_sampler_store_ok e Hreach)
    as [(Hci & Hgi & Hsi & Hempty)
       | (lc & lg & ls & Hci & Hgi & Hsi & Hcg & Hcs & Hgs & Hdom)].
  - left. by split_and!.
  - right. exists lc, lg, ls.
    destruct (reachable_initializers_ok e Hreach)
      as [_ [(Hnone & _) | (Hc & Hg & Hs & _)]]; [congruence|].
    rewrite Hci in Hc. rewrite Hgi in Hg. rewrite Hsi in Hs.
    split_and!; try done.
    repeat (apply NoDup_cons_2;
            [rewrite ?not_elem_of_cons; split_and?;
             done || apply not_elem_of_nil|]).
    apply NoDup_nil_2.
Qed.

End Lifecycle.

Lemma first_load_model_constructs_samplers_witness :
  cube Example.env_loaded = Some (new_cube 0)
  ∧ goal Example.env_loaded = Some (new_goal 1)
  ∧ stick Example.env_loaded = Some (new_stick 2)
  ∧ ∃ lc lg ls,
      cube_initializer Example.env_loaded = Some lc
      ∧ goal_initializer Example.env_loaded = Some lg
      ∧ stick_initializer Example.env_loaded = Some ls
      ∧ NoDup [lc; lg; ls]
      ∧ dom (samplers Example.env_loaded) = {[lc; lg; ls]}
      ∧ samplers Example.env_loaded !! lc
        = Some (mkSampler "CubeSampler" [new_cube 0] [-0.05; 0] [-0.1; 0.1]
                  (RotationValue 0) true true [0; 0; 0.8] 0.001)
      ∧ samplers Example.env_loaded !! lg
        = Some (mkSampler "GoalSampler" [new_goal 1] [0.07; 0.12]
                  [-0.1; 0.1] (RotationValue 0) true true [0; 0; 0.8] 0.001)
      ∧ samplers Example.env_loaded !! ls
        = Some (mkSampler "StickSampler" [new_stick 2] [-0.2; -0.08]
                  [-0.1; 0.1] (RotationValue 0) true true [0; 0; 0.8] 0.001).
Proof.
  apply (@first_load_model_constructs_samplers Example.framework
           [0.8; 0.8; 0.05] [1; 0.005; 0.0001] true Example.mj_sim
           0%nat false Example.env_loaded).
  exact example_load_model.
Defined.

Lemma reachable_three_samplers_witness :
  (samplers Example.env_ready = ∅
   ∧ cube_initializer Example.env_ready = None
   ∧ goal_initializer Example.env_ready = None
   ∧ stick_initializer Example.env_ready = None)
  ∨ (∃ lc lg ls,
       cube_initializer Example.env_ready = Some lc
       ∧ goal_initializer Example.env_ready = Some lg
       ∧ stick_initializer Example.env_ready = Some ls
       ∧ dom (samplers Example.env_ready) = {[lc; lg; ls]}).
Proof.
  destruct (@reachable_three_samplers Example.framework Example.env_ready
              example_reachable)
    as [Hnone | (lc & lg & ls & Hc & Hg & Hs & _ & Hdom & _)].
  - by left.
  - right. by exists lc, lg, ls.
Defined.

End LifecycleFacts.

(** ** Collision masks, continued *)

Module MaskMore.
Import Python Numpy Mujoco Robosuite StickPush Spec MaskFacts.

Lemma set_object_masks_succeeds (m : MjModel) (geom : string) (i : nat) :
  geom_ids m !! geom = Some i →
  (i < length (geom_contype m))%nat →
  (i < length (geom_conaffinity m))%nat →
  set_object_masks m geom
  = Some (with_masks (<[i := 4%Z]> (geom_contype m))
            (<[i := 4%Z]> (geom_conaffinity m)) m).
Proof.
  intros Hi Hct Hca.
  unfold set_object_masks, geom_name2id, set_geom_contype,
    set_geom_conaffinity, setitem.
  rewrite Hi. simpl. rewrite decide_True by done. simpl.
  rewrite Hi. simpl. by rewrite decide_True by done.
Qed.

(** The first loop succeeds when every name resolves inside both arrays. *)
Lemma object_masks_loop_succeeds (geoms : list string) (m : MjModel) :
  (∀ geom, geom ∈ geoms →
     ∃ i, geom_ids m !! geom = Some i
          ∧ (i < length (geom_contype m))%nat
          ∧ (i < length (geom_conaffinity m))%nat) →
  is_Some (for_each set_object_masks m geoms).
Proof.
  revert m. induction geoms as [|geom geoms IH]; intros m Hok; [by eexists|].
  destruct (Hok geom) as (i & Hi & Hct & Hca); [by left|].
  simpl. rewrite (set_object_masks_succeeds m geom i) by done. simpl.
  apply IH. intros geom' Hin. simpl. rewrite !length_insert.
  apply Hok. by right.
Qed.

Lemma set_gripper_mask_succeeds (gripper adr k : nat) (m : MjModel) :
  body_geomadr m !! gripper = Some adr →
  (k + adr < length (geom_contype m))%nat →
  set_gripper_mask gripper m k
  = Some (with_masks (<[(k + adr)%nat := 7%Z]> (geom_contype m))
            (geom_conaffinity m) m).
Proof.
  intros Hadr Hlt. unfold set_gripper_mask, set_geom_contype, setitem.
  rewrite Hadr. simpl. by rewrite decide_True by done.
Qed.

(** The second loop succeeds when the visited range lies inside the array. *)
Lemma gripper_masks_loop_succeeds (gripper adr : nat) (ks : list nat)
    (m : MjModel) :
  body_geomadr m !! gripper = Some adr →
  (∀ k, k ∈ ks → (k + adr < length (geom_contype m))%nat) →
  is_Some (for_each (set_gripper_mask gripper) m ks).
Proof.
  revert m. induction ks as [|k ks IH]; intros m Hadr Hok; [by eexists|].
  simpl. rewrite (set_gripper_mask_succeeds gripper adr k m);
    [|done|apply Hok; by left].
  simpl. apply IH; [done|]. intros k' Hin. simpl. rewrite length_insert.
  apply Hok. by right.
Qed.

(** A non-empty second loop has looked up the first geometry of the body. *)
Lemma gripper_masks_loop_adr (gripper : nat) (ks : list nat) (m m' : MjModel) :
  for_each (set_gripper_mask gripper) m ks = Some m' → ks ≠ [] →
  is_Some (body_geomadr m !! gripper).
Proof.
  destruct ks as [|k ks]; [done|]. simpl. intros Hloop _.
  destruct (set_gripper_mask gripper m k) as [m1|] eqn:Hm1;
    simpl in Hloop; [|done].
  apply set_gripper_mask_Some in Hm1 as (adr & Hadr & _). by exists adr.
Qed.

Section Masks.
Context `{Framework}.

(** The three loops of [_reset_internal], mask by mask. *)
Lemma set_collision_masks_pointwise (e : Env) (m m' : MjModel) :
  set_collision_masks e m = Some m' →
  ∃ c st r ct ca,
    cube e = Some c ∧ stick e = Some st ∧ refs e = Some r
    ∧ m' = with_masks ct ca m
    ∧ length ct = length (geom_contype m)
    ∧ length ca = length (geom_conaffinity m)
    ∧ (table_geom_id r < length ct)%nat
    ∧ (∀ geom, geom ∈ contact_geoms c ++ contact_geoms st →
         ∃ i, geom_ids m !! geom = Some i
              ∧ (i < length ct)%nat ∧ (i < length ca)%nat)
    ∧ (∃ num, body_geomnum m !! gripper_body_id r = Some num
              ∧ (num ≠ 0%nat →
                 is_Some (body_geomadr m !! gripper_body_id r)))
    ∧ (∀ i, gripper_geom m r i ∨ i = table_geom_id r →
            ct !! i = Some 7%Z)
    ∧ (∀ i, ¬ gripper_geom m r i → i ≠ table_geom_id r →
            object_geom m c st i → ct !! i = Some 4%Z)
    ∧ (∀ i, ¬ gripper_geom m r i → i ≠ table_geom_id r →
            ¬ object_geom m c st i → ct !! i = geom_contype m !! i)
    ∧ (∀ i, object_geom m c st i → ca !! i = Some 4%Z)
    ∧ (∀ i, ¬ object_geom m c st i → ca !! i = geom_conaffinity m !! i).
Proof.
  unfold set_collision_masks. intros Hm.
  destruct (cube e) as [c|]; simpl in Hm; [|done].
  destruct (stick e) as [st|]; simpl in Hm; [|done].
  destruct (for_each set_object_masks m _) as [m1|] eqn:Hobj;
    simpl in Hm; [|done].
  destruct (refs e) as [r|]; simpl in Hm; [|done].
  destruct (body_geomnum m1 !! gripper_body_id r) as [num|] eqn:Hnum;
    simpl in Hm; [|done].
  destruct (for_each _ m1 (seq 0 num)) as [m2|] eqn:Hgrip;
    simpl in Hm; [|done].
  pose proof (gripper_masks_loop_adr _ _ _ _ Hgrip) as Hadr.
  apply object_masks_loop in Hobj
    as (ct1 & ca1 & -> & Hlen1 & Hlen1' & Hin1 & _ & _ & Hout1).
  apply gripper_masks_loop in Hgrip as (ct2 & -> & Hlen2 & Hin2 & _ & Hout2).
  unfold set_geom_contype in Hm. simpl in *.
  destruct (setitem (table_geom_id r) 7%Z ct2) as [ct3|] eqn:Htable;
    simpl in Hm; [|done].
  apply setitem_Some in Htable as [Hlt ->]. injection Hm as <-.
  exists c, st, r, (<[table_geom_id r := 7%Z]> ct2), ca1.
  rewrite length_insert.
  assert (Hobj : ∀ i, object_geom m c st i →
                      ct1 !! i = Some 4%Z ∧ ca1 !! i = Some 4%Z).
  { intros i (geom & Hgeom & Hi). unfold geom_name2id in Hi.
    destruct (Hin1 geom Hgeom) as (i' & Hi' & Hct & Hca).
    by assert (i' = i) as -> by congruence. }
  assert (Hnotgrip : ∀ i, ¬ gripper_geom m r i →
                          ct2 !! i = ct1 !! i).
  { intros i Hnot. apply Hout2.
    intros k adr Hk%elem_of_seq Hadr' ->. apply Hnot.
    exists num, adr, k. split_and!; [done | done | lia | done]. }
  split_and!; try done; try congruence.
  - intros geom Hgeom. destruct (Hin1 geom Hgeom) as (i & Hi & Hct & Hca).
    exists i. apply lookup_lt_Some in Hct, Hca. split_and!; [done | lia | lia].
  - exists num. split; [done|]. intros Hnum'. apply Hadr.
    destruct num; [done|]. by rewrite <- cons_seq.
  - intros i [(num' & adr & k & Hnum' & Hadr' & Hk & ->) | ->].
    + assert (num' = num) as -> by congruence.
      assert (ct2 !! (k + adr)%nat = Some 7%Z) as Hct.
      { apply Hin2; [|done]. apply elem_of_seq. lia. }
      destruct (decide (table_geom_id r = (k + adr)%nat)) as [<-|Hne].
      * by apply list_lookup_insert_eq.
      * by rewrite list_lookup_insert_ne.
    + by apply list_lookup_insert_eq.
  - intros i Hnot Hne Hi. rewrite list_lookup_insert_ne by done.
    rewrite Hnotgrip by done. by apply Hobj.
  - intros i Hnot Hne Hi. rewrite list_lookup_insert_ne by done.
    rewrite Hnotgrip by done. apply Hout1.
    intros geom Hgeom Hid. apply Hi. by exists geom.
  - intros i Hi. by apply Hobj.
  - intros i Hi. apply Hout1. intros geom Hgeom Hid. apply Hi. by exists geom.
Qed.

(** What the three loops need in order not to raise. *)
Lemma set_collision_masks_succeeds (e : Env) (m : MjModel)
    (c st : MujocoObject) (r : References) (num : nat) :
  cube e = Some c → stick e = Some st → refs e = Some r →
  (∀ geom, geom ∈ contact_geoms c ++ contact_geoms st →
     ∃ i, geom_ids m !! geom = Some i
          ∧ (i < length (geom_contype m))%nat
          ∧ (i < length (geom_conaffinity m))%nat) →
  body_geomnum m !! gripper_body_id r = Some num →
  (num ≠ 0%nat → is_Some (body_geomadr m !! gripper_body_id r)) →
  (∀ i, gripper_geom m r i → (i < length (geom_contype m))%nat) →
  (table_geom_id r < length (geom_contype m))%nat →
  is_Some (set_collision_masks e m).
Proof.
  intros Hc Hst Hr Hgeoms Hnum Hadr Hgrip Htable.
  unfold set_collision_masks. rewrite Hc, Hst. simpl.
  destruct (object_masks_loop_succeeds _ m Hgeoms) as [m1 Hm1].
  rewrite Hm1. simpl. rewrite Hr. simpl.
  apply object_masks_loop in Hm1 as (ct1 & ca1 & -> & Hlen1 & _).
  simpl. rewrite Hnum. simpl.
  assert (is_Some (for_each (set_gripper_mask (gripper_body_id r))
                     (with_masks ct1 ca1 m) (seq 0 num))) as [m2 Hm2].
  { destruct num as [|num]; [by eexists|].
    destruct Hadr as [adr Hadr]; [done|].
    apply (gripper_masks_loop_succeeds _ adr); [done|].
    intros k Hk%elem_of_seq. simpl. rewrite Hlen1. apply Hgrip.
    exists (S num), adr, k. split_and!; [done | done | lia | done]. }
  rewrite Hm2. simpl.
  apply gripper_masks_loop in Hm2 as (ct2 & -> & Hlen2 & _).
  unfold set_geom_contype, setitem. simpl in *.
  rewrite decide_True by lia. by eexists.
Qed.

(** X14. The mask section of [_reset_internal] is idempotent: on a model on
    which it has run, running it again succeeds and changes no mask, so
    from the second reset on the collision masks stay as the first reset
    left them (unless something else rewrites them in between). *)
Theorem collision_masks_idempotent (e : Env) (m m' : MjModel) :
  set_collision_masks e m = Some m' →
  set_collision_masks e m' = Some m'.
Proof.
  intros Hrun.
  apply set_collision_masks_pointwise in Hrun
    as (c & st & r & ct & ca & Hc & Hst & Hr & -> & Hlen & Hlen' & Htable
        & Hgeoms & (num & Hnum & Hadr) & Hseven & Hfour & Hrest
        & Hfour' & Hrest').
  destruct (set_collision_masks_succeeds e (with_masks ct ca m) c st r num)
    as [m'' Hagain]; try done.
  { intros i Hi. apply (lookup_lt_Some _ _ 7%Z). apply Hseven. by left. }
  rewrite Hagain. f_equal.
  apply set_collision_masks_pointwise in Hagain
    as (c2 & st2 & r2 & ct2 & ca2 & Hc2 & Hst2 & Hr2 & -> & _ & _ & _
        & _ & _ & Hseven2 & Hfour2 & Hrest2 & Hfour2' & Hrest2').
  assert (c2 = c) as -> by congruence.
  assert (st2 = st) as -> by congruence.
  assert (r2 = r) as -> by congruence.
  change (gripper_geom (with_masks ct ca m) r)
    with (gripper_geom m r) in *.
  change (object_geom (with_masks ct ca m) c st)
    with (object_geom m c st) in *.
  simpl in *.
  assert (ct2 = ct) as ->.
  { apply list_eq. intros i.
    destruct (Classical_Prop.classic
                (gripper_geom m r i ∨ i = table_geom_id r)) as [Hi|Hi].
    - by rewrite Hseven2, Hseven.
    - assert (¬ gripper_geom m r i) as Hng by tauto.
      assert (i ≠ table_geom_id r) as Hnt by tauto.
      destruct (Classical_Prop.classic (object_geom m c st i)) as [Ho|Ho].
      + by rewrite Hfour2, Hfour.
      + by rewrite Hrest2. }
  assert (ca2 = ca) as ->.
  { apply list_eq. intros i.
    destruct (Classical_Prop.classic (object_geom m c st i)) as [Ho|Ho].
    - by rewrite Hfour2', Hfour'.
    - by rewrite Hrest2'. }
  reflexivity.
Qed.

End Masks.

Lemma collision_masks_idempotent_witness :
  @set_collision_masks Example.framework Example.env_ready
    (with_masks [7; 4; 4; 7; 7]%Z [1; 4; 4; 1; 1]%Z Example.mj_model)
  = Some (with_masks [7; 4; 4; 7; 7]%Z [1; 4; 4; 1; 1]%Z Example.mj_model).
Proof.
  by apply (@collision_masks_idempotent Example.framework Example.env_ready
              Example.mj_model).
Defined.

End MaskMore.

(** ** Reset, continued *)

Module ResetMore.
Import Python Numpy NumpyFacts Mujoco Robosuite StickPush Spec SpecMore.
Import MaskFacts MaskMore ResetFacts SamplerFacts SuccessFacts.

(** A successful joint write replaces a slice by one of the same length. *)
Lemma set_joint_qpos_shape (nm : string) (value : array) (d d' : MjData) :
  set_joint_qpos nm value d = Some d' →
  ∃ old, qpos d !! nm = Some old ∧ length value = length old.
Proof.
  unfold set_joint_qpos. intros Hd.
  destruct (qpos d !! nm) as [old|]; simpl in Hd; [|done].
  case_decide; [by exists old | done].
Qed.

Lemma broadcast_row_length (w : nat) (v row : array) :
  broadcast_row w v = Some row → length row = w.
Proof.
  unfold broadcast_row. case_decide; [by intros [= <-]|].
  destruct v as [|x [|]]; try done. intros [= <-]. apply length_replicate.
Qed.

Lemma setrow_bound (w i : nat) (v : array) (arr arr' : list array) :
  setrow w i v arr = Some arr' → (i < length arr)%nat.
Proof.
  unfold setrow. intros Ha.
  destruct (broadcast_row w v) as [row|]; simpl in Ha; [|done].
  by apply setitem_Some in Ha as [Hlt _].
Qed.

Section Reset.
Context `{Framework}.

(** The sampling branch once more, with the conditions under which its
    writes are accepted. *)
Lemma place_objects_writes (e : Env) (s : MjSim) (g : Rng)
    (s' : MjSim) (g' : Rng) :
  place_objects e s g = Some (s', g') →
  ∃ t, places_objects e s g t s' g'
       ∧ (∃ old, qpos (data s) !! cube_joint t = Some old
                 ∧ length (position (cube_pose t)
                           ++ orientation (cube_pose t)) = length old)
       ∧ (∃ old, <[cube_joint t :=
                     position (cube_pose t) ++ orientation (cube_pose t)]>
                   (qpos (data s)) !! stick_joint t = Some old
                 ∧ length (position (stick_pose t)
                           ++ orientation (stick_pose t)) = length old)
       ∧ (goal_body t < length (body_pos (model s)))%nat
       ∧ (goal_body t < length (body_quat (model s)))%nat.
Proof.
  unfold place_objects. intros Hp.
  destruct (sampler_at (cube_initializer e) e) as [cs|] eqn:Hcs;
    simpl in Hp; [|done].
  destruct (sample cs None g) as [[cpl g1]|] eqn:Hcpl; simpl in Hp; [|done].
  destruct (cpl !! "cube") as [[[cpos cquat] cobj]|] eqn:Hcube;
    simpl in Hp; [|done].
  destruct (cube e) as [c|] eqn:Hc; simpl in Hp; [|done].
  destruct (joints c !! 0%nat) as [cj|] eqn:Hcj; simpl in Hp; [|done].
  destruct (set_joint_qpos cj _ (data s)) as [d1|] eqn:Hd1;
    simpl in Hp; [|done].
  destruct (sampler_at (stick_initializer e) e) as [ss|] eqn:Hss;
    simpl in Hp; [|done].
  destruct (sample ss (Some cpl) g1) as [[spl g2]|] eqn:Hspl;
    simpl in Hp; [|done].
  destruct (spl !! "stick") as [[[spos squat] sobj]|] eqn:Hstick;
    simpl in Hp; [|done].
  destruct (stick e) as [st|] eqn:Hst; simpl in Hp; [|done].
  destruct (joints st !! 0%nat) as [sj|] eqn:Hsj; simpl in Hp; [|done].
  destruct (set_joint_qpos sj _ d1) as [d2|] eqn:Hd2; simpl in Hp; [|done].
  destruct (sampler_at (goal_initializer e) e) as [gs|] eqn:Hgs;
    simpl in Hp; [|done].
  destruct (sample gs None g2) as [[gpl g3]|] eqn:Hgpl; simpl in Hp; [|done].
  destruct (gpl !! "goal") as [[[gpos gquat] gobj]|] eqn:Hgoal;
    simpl in Hp; [|done].
  destruct (refs e) as [r|] eqn:Hr; simpl in Hp; [|done].
  destruct (set_body_pos (goal_body_id r) gpos (model s)) as [m1|] eqn:Hm1;
    simpl in Hp; [|done].
  destruct (set_body_quat (goal_body_id r) gquat m1) as [m2|] eqn:Hm2;
    simpl in Hp; [|done].
  injection Hp as <- <-.
  pose proof (set_joint_qpos_shape _ _ _ _ Hd1) as Hold1.
  pose proof (set_joint_qpos_shape _ _ _ _ Hd2) as Hold2.
  apply set_joint_qpos_Some in Hd1 as ->.
  apply set_joint_qpos_Some in Hd2 as ->.
  assert (goal_body_id r < length (body_pos (model s)))%nat as Hbp.
  { unfold set_body_pos in Hm1.
    destruct (setrow 3 _ _ _) eqn:Hrow; [|done]. by eapply setrow_bound. }
  apply set_body_pos_Some in Hm1 as (prow & Hprow & ->).
  assert (goal_body_id r < length (body_quat (model s)))%nat as Hbq.
  { unfold set_body_quat in Hm2.
    destruct (setrow 4 _ _ _) eqn:Hrow; [|done]. by eapply setrow_bound. }
  apply set_body_quat_Some in Hm2 as (qrow & Hqrow & ->).
  exists (mkPlacing cs cpl (cpos, cquat, cobj) cj g1
            ss spl (spos, squat, sobj) sj g2
            gs gpl (gpos, gquat, gobj) (goal_body_id r)).
  unfold places_objects, position, orientation, concatenate in *. simpl in *.
  split_and!; try done.
  - by exists c.
  - by exists st.
  - by exists r.
  - by exists prow.
  - by exists qrow.
Qed.

(** X15. [_reset_internal] does not refresh the absolute body poses: the
    buffers [body_xpos] and [body_xquat], and with them the reward and the
    four absolute sensors, are after the reset what the reset of the base
    class left, not the freshly sampled placement; the objects, samplers
    and references of the instance are not touched either. *)
Theorem reset_internal_keeps_absolute_poses (e e' : Env) :
  _reset_internal e = Some e' →
  ∃ b s0 g0,
    super_reset_internal (base e) (sim e) (rng e) = Some (b, s0, g0)
    ∧ base e' = b
    ∧ body_xpos (data (sim e')) = body_xpos (data s0)
    ∧ body_xquat (data (sim e')) = body_xquat (data s0)
    ∧ (∀ action, reward e' action = reward (set_world b s0 g0 e) action)
    ∧ (∀ cache,
         cube_pos e' cache = cube_pos (set_world b s0 g0 e) cache
         ∧ goal_pos e' cache = goal_pos (set_world b s0 g0 e) cache
         ∧ stick_pos e' cache = stick_pos (set_world b s0 g0 e) cache
         ∧ stick_quat e' cache = stick_quat (set_world b s0 g0 e) cache)
    ∧ refs e' = refs e ∧ samplers e' = samplers e
    ∧ cube e' = cube e ∧ goal e' = goal e ∧ stick e' = stick e
    ∧ cube_initializer e' = cube_initializer e
    ∧ goal_initializer e' = goal_initializer e
    ∧ stick_initializer e' = stick_initializer e.
Proof.
  intros Hreset.
  apply reset_internal_Some in Hreset
    as (b & s0 & g0 & m & Hsuper & _ & Hcases).
  exists b, s0, g0.
  assert (∃ s' g', e' = set_world b s' g' e
                   ∧ body_xpos (data s') = body_xpos (data s0)
                   ∧ body_xquat (data s') = body_xquat (data s0))
    as (s' & g' & -> & Hxpos & Hxquat).
  { destruct Hcases as [[_ ->] | [_ (s' & g' & Hp & ->)]].
    - by eexists _, _.
    - exists s', g'. apply place_objects_trace in Hp as [t Ht].
      destruct Ht as (_ & _ & _ & _ & _ & _ & _ & _ & _ & _ & _ & _ & _ & _
                      & _ & _ & Hxpos & Hxquat).
      by split_and!. }
  unfold reward, cube_pos, goal_pos, stick_pos, stick_quat. simpl.
  rewrite Hxpos, Hxquat. by split_and!.
Qed.

(** X16. A deterministic reset changes nothing but the collision masks: it
    draws no placement, so the random state, the joint positions and the
    fixed body poses are the ones the reset of the base class left, and it
    needs no sampler. *)
Theorem deterministic_reset_sets_masks_only (e e' : Env) :
  _reset_internal e = Some e' →
  deterministic_reset (base e') = true →
  ∃ b s0 g0 contype conaffinity,
    super_reset_internal (base e) (sim e) (rng e) = Some (b, s0, g0)
    ∧ sim e' = mkSim (with_masks contype conaffinity (model s0)) (data s0)
    ∧ rng e' = g0.
Proof.
  intros Hreset Hdet.
  apply reset_internal_Some in Hreset
    as (b & s0 & g0 & m & Hsuper & Hm
        & [[Hb ->] | [Hb (s' & g' & Hp & ->)]]).
  - apply set_collision_masks_Some in Hm
      as (_ & _ & _ & ct & ca & _ & _ & _ & -> & _).
    by exists b, s0, g0, ct, ca.
  - simpl in Hdet. congruence.
Qed.

(** Replacing a slice by one of the same length keeps every length. *)
Lemma insert_keeps_lengths (q : gmap string array) (k : string)
    (v old : array) :
  q !! k = Some old → length v = length old →
  ∀ j, length <$> <[k := v]> q !! j = length <$> q !! j.
Proof.
  intros Hk Hlen j. destruct (decide (k = j)) as [<-|Hne].
  - rewrite lookup_insert_eq, Hk. simpl. by rewrite Hlen.
  - by rewrite lookup_insert_ne.
Qed.

Lemma insert_keeps_width (w i : nat) (row : array) (rows : list array) :
  length row = w →
  Forall (λ r : array, length r = w) rows →
  Forall (λ r : array, length r = w) (<[i := row]> rows).
Proof.
  intros Hrow Hrows. apply Forall_lookup. intros j r Hj.
  destruct (decide (i = j)) as [<-|Hne].
  - destruct (decide (i < length rows)%nat) as [Hlt|Hge].
    + rewrite list_lookup_insert_eq in Hj by done. congruence.
    + rewrite list_insert_ge in Hj by lia.
      by apply (Forall_lookup_1 _ _ _ _ Hrows Hj).
  - rewrite list_lookup_insert_ne in Hj by done.
    by apply (Forall_lookup_1 _ _ _ _ Hrows Hj).
Qed.

(** X17. [_reset_internal] keeps the shape of the simulator it is given by
    the reset of the base class: no joint appears or disappears and every
    joint keeps the length of its slice of [qpos]; the mask arrays and the
    arrays of fixed body poses keep their lengths, and their rows keep the
    widths 3 and 4. *)
Theorem reset_internal_keeps_shapes (e e' : Env) :
  _reset_internal e = Some e' →
  ∃ b s0 g0,
    super_reset_internal (base e) (sim e) (rng e) = Some (b, s0, g0)
    ∧ (∀ j, length <$> qpos (data (sim e')) !! j
            = length <$> qpos (data s0) !! j)
    ∧ length (geom_contype (model (sim e')))
      = length (geom_contype (model s0))
    ∧ length (geom_conaffinity (model (sim e')))
      = length (geom_conaffinity (model s0))
    ∧ length (body_pos (model (sim e'))) = length (body_pos (model s0))
    ∧ length (body_quat (model (sim e'))) = length (body_quat (model s0))
    ∧ (Forall (λ row : array, length row = 3%nat) (body_pos (model s0)) →
       Forall (λ row : array, length row = 3%nat)
         (body_pos (model (sim e'))))
    ∧ (Forall (λ row : array, length row = 4%nat) (body_quat (model s0)) →
       Forall (λ row : array, length row = 4%nat)
         (body_quat (model (sim e')))).
Proof.
  intros Hreset.
  apply reset_internal_Some in Hreset
    as (b & s0 & g0 & m & Hsuper & Hm & Hcases).
  apply set_collision_masks_pointwise in Hm
    as (_ & _ & _ & ct & ca & _ & _ & _ & -> & Hlen & Hlen' & _).
  exists b, s0, g0. split; [done|].
  destruct Hcases as [[_ ->] | [_ (s' & g' & Hp & ->)]]; [by split_and!|].
  apply place_objects_writes in Hp
    as (t & Ht & (old1 & Hold1 & Hlen1) & (old2 & Hold2 & Hlen2) & _ & _).
  destruct Ht as (_ & _ & _ & _ & _ & _ & _ & _ & _ & _ & _ & _ & Hqpos
                  & (prow & Hprow & Hpos) & (qrow & Hqrow & Hquat)
                  & Hmodel & _).
  simpl in *. rewrite Hqpos, Hpos, Hquat.
  split_and!.
  - intros j.
    rewrite (insert_keeps_lengths _ _ _ old2) by done.
    by rewrite (insert_keeps_lengths _ _ _ old1).
  - by rewrite Hmodel.
  - by rewrite Hmodel.
  - apply length_insert.
  - apply length_insert.
  - apply insert_keeps_width. by eapply broadcast_row_length.
  - apply insert_keeps_width. by eapply broadcast_row_length.
Qed.

(** X18. What a stochastic reset leaves to be read back: the stick's joint
    holds the drawn stick pose (position followed by orientation); the
    cube's joint holds the drawn cube pose, unless the two joints are the
    same one, in which case the later stick write wins; every other joint
    is untouched; the row of the goal body in [body_pos] and [body_quat]
    holds the drawn goal pose, and every other row is untouched. *)
Theorem stochastic_reset_read_back (e e' : Env) :
  _reset_internal e = Some e' →
  deterministic_reset (base e') = false →
  ∃ b s0 g0 m t,
    super_reset_internal (base e) (sim e) (rng e) = Some (b, s0, g0)
    ∧ places_objects e (mkSim m (data s0)) g0 t (sim e') (rng e')
    ∧ qpos (data (sim e')) !! stick_joint t
      = Some (position (stick_pose t) ++ orientation (stick_pose t))
    ∧ (cube_joint t ≠ stick_joint t →
       qpos (data (sim e')) !! cube_joint t
       = Some (position (cube_pose t) ++ orientation (cube_pose t)))
    ∧ (∀ j, j ≠ cube_joint t → j ≠ stick_joint t →
            qpos (data (sim e')) !! j = qpos (data s0) !! j)
    ∧ (length (position (goal_pose t)) = 3%nat →
       body_pos (model (sim e')) !! goal_body t
       = Some (position (goal_pose t)))
    ∧ (length (orientation (goal_pose t)) = 4%nat →
       body_quat (model (sim e')) !! goal_body t
       = Some (orientation (goal_pose t)))
    ∧ (∀ i, i ≠ goal_body t →
            body_pos (model (sim e')) !! i = body_pos (model s0) !! i
            ∧ body_quat (model (sim e')) !! i
              = body_quat (model s0) !! i).
Proof.
  intros Hreset Hdet.
  apply reset_internal_Some in Hreset
    as (b & s0 & g0 & m & Hsuper & Hm
        & [[Hb ->] | [Hb (s' & g' & Hp & ->)]]).
  { simpl in Hdet. congruence. }
  apply set_collision_masks_Some in Hm
    as (_ & _ & _ & ct & ca & _ & _ & _ & -> & _).
  apply place_objects_writes in Hp as (t & Ht & _ & _ & Hbp & Hbq).
  exists b, s0, g0, (with_masks ct ca (model s0)), t.
  split; [done|]. split; [done|].
  destruct Ht as (_ & _ & _ & _ & _ & _ & _ & _ & _ & _ & _ & _ & Hqpos
                  & (prow & Hprow & Hpos) & (qrow & Hqrow & Hquat) & _).
  simpl in *. rewrite Hqpos, Hpos, Hquat. split_and!.
  - by rewrite lookup_insert_eq.
  - intros Hne. rewrite lookup_insert_ne by done.
    by rewrite lookup_insert_eq.
  - intros j Hc Hs. by rewrite !lookup_insert_ne.
  - intros Hlen. unfold broadcast_row in Hprow.
    rewrite decide_True in Hprow by done. injection Hprow as <-.
    by apply list_lookup_insert_eq.
  - intros Hlen. unfold broadcast_row in Hqrow.
    rewrite decide_True in Hqrow by done. injection Hqrow as <-.
    by apply list_lookup_insert_eq.
  - intros i Hne. by rewrite !list_lookup_insert_ne.
Qed.

End Reset.

(** *** The concrete scene *)

Lemma example_deterministic_reset :
  @_reset_internal Example.framework
    (@set_world Example.framework true Example.mj_sim 0%nat Example.env_ready)
  = Some (@set_world Example.framework true
            (mkSim (with_masks [7; 4; 4; 7; 7]%Z [1; 4; 4; 1; 1]%Z
                      Example.mj_model) Example.mj_data)
            0%nat Example.env_ready).
Proof. reflexivity. Qed.

Lemma reset_internal_keeps_absolute_poses_witness :
  @reward Example.framework Example.env_reset None
  = @reward Example.framework Example.env_ready None.
Proof.
  destruct (@reset_internal_keeps_absolute_poses Example.framework
              Example.env_ready Example.env_reset example_reset_internal)
    as (b & s0 & g0 & [= <- <- <-] & _ & _ & _ & Hreward & _).
  exact (Hreward None).
Defined.

Lemma deterministic_reset_sets_masks_only_witness :
  ∃ b s0 g0 contype conaffinity,
    @super_reset_internal Example.framework true Example.mj_sim 0%nat
    = Some (b, s0, g0)
    ∧ mkSim (with_masks [7; 4; 4; 7; 7]%Z [1; 4; 4; 1; 1]%Z
               Example.mj_model) Example.mj_data
      = mkSim (with_masks contype conaffinity (model s0)) (data s0)
    ∧ 0%nat = g0.
Proof.
  exact (@deterministic_reset_sets_masks_only Example.framework _ _
           example_deterministic_reset eq_refl).
Defined.

Lemma reset_internal_keeps_shapes_witness :
  length <$> qpos (data (sim Example.env_reset)) !! "cube_joint0"
  = length <$> qpos Example.mj_data !! "cube_joint0".
Proof.
  destruct (@reset_internal_keeps_shapes Example.framework
              Example.env_ready Example.env_reset example_reset_internal)
    as (b & s0 & g0 & [= <- <- <-] & Hqpos & _).
  exact (Hqpos "cube_joint0").
Defined.

Lemma stochastic_reset_read_back_witness :
  ∃ t,
    qpos (data (sim Example.env_reset)) !! @stick_joint Example.framework t
    = Some (position (stick_pose t) ++ orientation (stick_pose t)).
Proof.
  destruct (@stochastic_reset_read_back Example.framework
              Example.env_ready Example.env_reset example_reset_internal
              eq_refl)
    as (b & s0 & g0 & m & t & _ & _ & Hstick & _).
  by exists t.
Defined.

End ResetMore.

(** ** Where a reset puts the objects *)

Module PlacementFacts.
Import Python Numpy NumpyFacts Mujoco Robosuite StickPush Spec SpecMore.
Import ResetFacts SamplerFacts SuccessFacts.

Section Placement.
Context `{Framework}.

(** The three draws of a stochastic reset, by coordinates. *)
Lemma stochastic_reset_draws (e e' : Env) :
  sampler_contract →
  reachable e →
  _reset_internal e = Some e' →
  deterministic_reset (base e') = false →
  ∃ b s0 g0 m t cx cy cz sx sy sz gx gy gz,
    super_reset_internal (base e) (sim e) (rng e) = Some (b, s0, g0)
    ∧ places_objects e (mkSim m (data s0)) g0 t (sim e') (rng e')
    ∧ position (cube_pose t) = [cx; cy; cz]
    ∧ position (stick_pose t) = [sx; sy; sz]
    ∧ position (goal_pose t) = [gx; gy; gz]
    ∧ -0.05 <= cx <= 0 ∧ -0.1 <= cy <= 0.1
    ∧ -0.2 <= sx <= -0.08 ∧ -0.1 <= sy <= 0.1
    ∧ 0.07 <= gx <= 0.12 ∧ -0.1 <= gy <= 0.1.
Proof.
  intros Hcontract Hreach Hreset Hdet.
  apply reachable_initializers_ok in Hreach as [Hoff Hcases].
  apply reset_internal_Some in Hreset
    as (b & s0 & g0 & m & Hsuper & _
        & [[Hb ->] | [Hb (s' & g' & Hp & ->)]]).
  { simpl in Hdet. congruence. }
  apply place_objects_trace in Hp as [t Ht].
  pose proof Ht as (Hcs & Hcdraw & Hcpose & _ & Hss & Hsdraw & Hspose & _
                    & Hgs & Hgdraw & Hgpose & _).
  destruct Hcases as [(Hnone & _ & _) | (Hc & Hg & Hs & _)].
  { rewrite Hnone in Hcs. done. }
  destruct (draw_in_rectangle _ _ _ _ _ _ _ _ _ _ _ _ _ _ _
              Hcontract Hc Hcs Hcdraw Hcpose)
    as [_ (cx & cy & cz & ox & oy & oz & Hcpos & Horigin & Hcx & Hcy)].
  destruct (draw_in_rectangle _ _ _ _ _ _ _ _ _ _ _ _ _ _ _
              Hcontract Hs Hss Hsdraw Hspose)
    as [_ (sx & sy & sz & ox' & oy' & oz' & Hspos & Horigin' & Hsx & Hsy)].
  destruct (draw_in_rectangle _ _ _ _ _ _ _ _ _ _ _ _ _ _ _
              Hcontract Hg Hgs Hgdraw Hgpose)
    as [_ (gx & gy & gz & ox'' & oy'' & oz'' & Hgpos & Horigin'' & Hgx
           & Hgy)].
  rewrite Hoff in Horigin, Horigin', Horigin''.
  injection Horigin as <- <- <-. injection Horigin' as <- <- <-.
  injection Horigin'' as <- <- <-.
  exists b, s0, g0, m, t, cx, cy, cz, sx, sy, sz, gx, gy, gz.
  split_and!; try done; lra.
Qed.

(** X19. Under the sampler's contract, no stochastic reset starts in the
    goal: along x the drawn stick lies behind the drawn cube and the drawn
    goal ahead of it, at least 0.07 away, so [check_success] on the drawn
    goal and cube positions is false and [compute_reward] on them is -1. *)
Theorem stochastic_reset_starts_outside_goal (e e' : Env) :
  sampler_contract →
  reachable e →
  _reset_internal e = Some e' →
  deterministic_reset (base e') = false →
  ∃ b s0 g0 m t cx cy cz sx sy sz gx gy gz,
    super_reset_internal (base e) (sim e) (rng e) = Some (b, s0, g0)
    ∧ places_objects e (mkSim m (data s0)) g0 t (sim e') (rng e')
    ∧ position (cube_pose t) = [cx; cy; cz]
    ∧ position (stick_pose t) = [sx; sy; sz]
    ∧ position (goal_pose t) = [gx; gy; gz]
    ∧ sx + 0.03 <= cx ∧ cx + 0.07 <= gx
    ∧ check_success (position (goal_pose t)) (position (cube_pose t))
      = Some false
    ∧ compute_reward (position (goal_pose t)) (position (cube_pose t))
        (∅ : gmap string array) = Some (-1)%Z.
Proof.
  intros Hcontract Hreach Hreset Hdet.
  destruct (stochastic_reset_draws e e' Hcontract Hreach Hreset Hdet)
    as (b & s0 & g0 & m & t & cx & cy & cz & sx & sy & sz & gx & gy & gz
        & Hsuper & Ht & Hc & Hs & Hg & Hcx & Hcy & Hsx & Hsy & Hgx & Hgy).
  exists b, s0, g0, m, t, cx, cy, cz, sx, sy, sz, gx, gy, gz.
  assert (check_success [gx; gy; gz] [cx; cy; cz] = Some false) as Hfar.
  { rewrite check_success_3d. f_equal. apply leb_false. unfold GOAL_RADIUS.
    rewrite <- (sqrt_square 0.05) by lra.
    apply sqrt_lt_1_alt.
    assert (0.07 * 0.07 <= (gx - cx) * (gx - cx)) as Hdx
      by (apply Rmult_le_compat; lra).
    pose proof (Rle_0_sqr (gy - cy)) as Hdy. unfold Rsqr in Hdy. lra. }
  unfold compute_reward. rewrite Hc, Hg, Hfar.
  split_and!; try done; lra.
Qed.

(** X20. Under the sampler's contract, every stochastic reset draws the
    cube and the stick inside the (x, y) rectangle of [GRIPPER_BOUNDS] laid
    out from the table offset, which the end-effector is meant to stay in,
    and draws the goal outside of it, beyond its upper x edge. *)
Theorem stochastic_reset_within_gripper_bounds (e e' : Env) :
  sampler_contract →
  reachable e →
  _reset_internal e = Some e' →
  deterministic_reset (base e') = false →
  ∃ b s0 g0 m t xlo xhi ylo yhi zrow gx gy gz,
    super_reset_internal (base e) (sim e) (rng e) = Some (b, s0, g0)
    ∧ places_objects e (mkSim m (data s0)) g0 t (sim e') (rng e')
    ∧ GRIPPER_BOUNDS = [[xlo; xhi]; [ylo; yhi]; zrow]
    ∧ in_rectangle (position (cube_pose t)) xlo xhi ylo yhi (table_offset e)
    ∧ in_rectangle (position (stick_pose t)) xlo xhi ylo yhi (table_offset e)
    ∧ position (goal_pose t) = [gx; gy; gz]
    ∧ xhi + 0.07 <= gx.
Proof.
  intros Hcontract Hreach Hreset Hdet.
  destruct (stochastic_reset_draws e e' Hcontract Hreach Hreset Hdet)
    as (b & s0 & g0 & m & t & cx & cy & cz & sx & sy & sz & gx & gy & gz
        & Hsuper & Ht & Hc & Hs & Hg & Hcx & Hcy & Hsx & Hsy & Hgx & Hgy).
  apply reachable_initializers_ok in Hreach as [Hoff _].
  exists b, s0, g0, m, t, (-0.2), 0, (-0.1), 0.1, [0; 0.2], gx, gy, gz.
  split_and!; try done; try lra.
  - exists cx, cy, cz, 0, 0, 0.8. split_and!; try done; lra.
  - exists sx, sy, sz, 0, 0, 0.8. split_and!; try done; lra.
Qed.

End Placement.

Lemma stochastic_reset_starts_outside_goal_witness :
  ∃ t,
    check_success (position (@goal_pose Example.framework t))
      (position (cube_pose t)) = Some false.
Proof.
  destruct (@stochastic_reset_starts_outside_goal Example.framework
              Example.env_ready Example.env_reset example_sampler_contract
              example_reachable example_reset_internal eq_refl)
    as (b & s0 & g0 & m & t & cx & cy & cz & sx & sy & sz & gx & gy & gz
        & _ & _ & _ & _ & _ & _ & _ & Hfar & _).
  by exists t.
Defined.

Lemma stochastic_reset_within_gripper_bounds_witness :
  ∃ t xlo xhi ylo yhi,
    in_rectangle (position (@cube_pose Example.framework t))
      xlo xhi ylo yhi [0; 0; 0.8]
    ∧ in_rectangle (position (stick_pose t)) xlo xhi ylo yhi [0; 0; 0.8].
Proof.
  destruct (@stochastic_reset_within_gripper_bounds Example.framework
              Example.env_ready Example.env_reset example_sampler_contract
              example_reachable example_reset_internal eq_refl)
    as (b & s0 & g0 & m & t & xlo & xhi & ylo & yhi & zrow & gx & gy & gz
        & _ & _ & _ & Hc & Hs & _).
  by exists t, xlo, xhi, ylo, yhi.
Defined.

End PlacementFacts.
